(** * Image-generation chat bot (src/main.py): embedding and verified properties

    The bot keeps a per-user conversational state in the module-level dict
    [user_states], and on an accepted prompt runs
    [generate_image_from_prompt]: one job-creation POST followed by a
    bounded polling loop (20 attempts, 5 seconds of sleep before each).

    Modelling choices, all read off the source:
    - JSON values are the Python objects [response.json()] produces; dict
      lookup, subscripting, truthiness and [==] against a [str] follow
      Python (KeyError / TypeError / IndexError where Python raises).
    - The inference service is an oracle [net]: the n-th HTTP call the
      process makes receives [net n].  The request itself is recorded in the
      effect trace.
    - Handlers are computations in a state-and-exception monad over the
      process state ([user_states] and the HTTP call counter) that also
      return the chronological list of effects they performed.
    - The messaging collaborator (reply_text, reply_photo, answer,
      edit_message_text) is outside the scope of the program: its calls are
      recorded as effects and return normally.
    - [main] builds the application without concurrent updates, so one update
      is handled to completion before the next one is dispatched; [run]
      follows that.
    - What the process state is while a job runs is not visible in the
      input-output behaviour of a handler; the effect-by-effect versions
      ([handle_message_observed] and the like) record it. *)

From Stdlib Require Import ZArith String List Lia.
From Stdlib Require QArith_base.
From stdpp Require Import base gmap list.
Import ListNotations.

Local Open Scope Z_scope.

(** ** Python values and exceptions *)

(** The value of [response.json()].  A [JObj] lists the items of the parsed
    dict (keys are distinct there).  Strings hold UTF-8 bytes. *)
#[warnings="-register-all"]
Inductive json : Type :=
| JNull
| JBool (b : bool)
| JInt (n : Z)
| JFloat (x : QArith_base.Q)
| JStr (s : string)
| JArr (items : list json)
| JObj (items : list (string * json)).

(** The exceptions (all subclasses of [Exception]) that the code under
    [generate_image_from_prompt] can raise. *)
Inductive exn : Type :=
| HTTPError (status_code : Z)   (* raise_for_status *)
| RequestException              (* requests.post / requests.get got no response *)
| JSONDecodeError               (* response.json() on a body that is not JSON *)
| KeyError (key : json)
| IndexError
| TypeError.

Inductive result (A : Type) : Type :=
| Ret (a : A)
| Raise (e : exn).
Arguments Ret {A} a.
Arguments Raise {A} e.

(** [bool(v)] *)
Definition truthy (v : json) : bool :=
  match v with
  | JNull => false
  | JBool b => b
  | JInt n => negb (n =? 0)
  | JFloat x => negb (QArith_base.Qeq_bool x (QArith_base.Qmake 0 1))
  | JStr s => negb (String.eqb s "")
  | JArr items => match items with [] => false | _ :: _ => true end
  | JObj items => match items with [] => false | _ :: _ => true end
  end.

Fixpoint dict_lookup (key : string) (items : list (string * json)) : option json :=
  match items with
  | [] => None
  | (k, v) :: rest => if String.eqb k key then Some v else dict_lookup key rest
  end.

(** [v[key]] for a [str] key: only a dict can be subscripted by a string. *)
Definition getitem (v : json) (key : string) : result json :=
  match v with
  | JObj items =>
      match dict_lookup key items with
      | Some x => Ret x
      | None => Raise (KeyError (JStr key))
      end
  | _ => Raise TypeError
  end.

(** A continuation byte of a UTF-8 sequence is 10xxxxxx. *)
Definition utf8_continuation (c : Ascii.ascii) : bool :=
  let n := Ascii.N_of_ascii c in (128 <=? n)%N && (n <? 192)%N.

Fixpoint utf8_continuations (s : string) : string :=
  match s with
  | String c rest =>
      if utf8_continuation c then String c (utf8_continuations rest) else EmptyString
  | EmptyString => EmptyString
  end.

(** The first character of a non-empty [str]: the lead byte and its
    continuation bytes. *)
Definition first_char (s : string) : string :=
  match s with
  | String c rest => String c (utf8_continuations rest)
  | EmptyString => EmptyString
  end.

(** [v[0]] *)
Definition getitem0 (v : json) : result json :=
  match v with
  | JArr (x :: _) => Ret x
  | JArr [] => Raise IndexError
  | JStr EmptyString => Raise IndexError
  | JStr s => Ret (JStr (first_char s))
  | JObj _ => Raise (KeyError (JInt 0))
  | _ => Raise TypeError
  end.

(** [v == s] for a [str] literal [s]: only an equal [str] compares equal. *)
Definition eq_str (v : json) (s : string) : bool :=
  match v with
  | JStr t => String.eqb t s
  | _ => false
  end.

(** ** HTTP responses of the inference service *)

Record response : Type := mkResponse {
  status_code : Z;
  body : option json   (* [None]: the body is not valid JSON *)
}.

Inductive http_result : Type :=
| NoResponse
| Response (r : response).

(** [requests.Response.raise_for_status]: 4xx and 5xx codes raise. *)
Definition is_error_status (code : Z) : bool := (400 <=? code) && (code <? 600).

Definition raise_for_status (r : response) : result unit :=
  if is_error_status (status_code r) then Raise (HTTPError (status_code r)) else Ret tt.

Definition response_json (r : response) : result json :=
  match body r with
  | Some v => Ret v
  | None => Raise JSONDecodeError
  end.

(** ** Effects *)

Inductive level : Type := WARNING | ERROR.

(** The log calls of the handlers, with the values their f-strings format. *)
Inductive log_record : Type :=
| LogNoImageUrl (data : json)                    (* line 105 *)
| LogJobFailed (task_id data : json)             (* line 108 *)
| LogUnknownStatus (task_id status : json)       (* line 113 *)
| LogTimeout (task_id : json)                    (* line 116 *)
| LogGenerationError (user_id : Z) (e : exn).    (* line 72 *)

Definition inline_keyboard : Type := list (list (string * string)).

(** The texts the handlers send, with the value their f-string formats. *)
Inductive bot_text : Type :=
| Greeting                    (* line 46 *)
| AskPrompt                   (* line 55 *)
| Starting (prompt : string)  (* line 62 *)
| Failed                      (* line 70 *)
| ErrorOccurred               (* line 73 *)
| PressButton.                (* line 75 *)

Definition render (t : bot_text) : string :=
  match t with
  | Greeting => "Привет! Я бот для генерации изображений."
  | AskPrompt => "Пожалуйста, введите текст для генерации изображения:"
  | Starting prompt =>
      String.append "Начинаю генерацию изображения по запросу: '"
        (String.append prompt "'. Это может занять некоторое время...")
  | Failed => "Не удалось сгенерировать изображение. Пожалуйста, попробуйте еще раз."
  | ErrorOccurred =>
      "Произошла ошибка при попытке сгенерировать изображение. Пожалуйста, попробуйте позже."
  | PressButton => "Нажмите 'Сгенерировать изображение', чтобы начать."
  end.

Definition start_keyboard : inline_keyboard :=
  [[("Сгенерировать изображение"%string, "generate_image"%string)]].

Definition photo_caption : string := "Ваше сгенерированное изображение:".

Inductive effect : Type :=
| Post (prompt : string)            (* POST {base_url}v1/images/generations *)
| Get (task_id : json)              (* GET {base_url}v1/tasks/{task_id} *)
| Sleep (seconds : Z)               (* time.sleep *)
| Log (lvl : level) (r : log_record)
| ReplyText (user_id : Z) (t : bot_text) (reply_markup : option inline_keyboard)
| ReplyPhoto (user_id : Z) (photo : json) (caption : string)
| Answer (user_id : Z)              (* query.answer() *)
| EditMessageText (user_id : Z) (t : bot_text).

(** ** Process state and the handler monad *)

Record proc : Type := mkProc {
  user_states : gmap Z string;
  http_calls : nat
}.

Definition M (A : Type) : Type := proc -> result A * proc * list effect.

#[global] Instance M_ret : MRet M := fun A a s => (Ret a, s, []).

#[global] Instance M_bind : MBind M := fun A B k m s =>
  match m s with
  | (Ret a, s1, tr1) =>
      match k a s1 with
      | (r, s2, tr2) => (r, s2, tr1 ++ tr2)
      end
  | (Raise e, s1, tr1) => (Raise e, s1, tr1)
  end.

Definition lift {A} (r : result A) : M A := fun s => (r, s, []).

Definition emit (e : effect) : M unit := fun s => (Ret tt, s, [e]).

(** [try: m  except Exception as e: h e] *)
Definition try_except {A} (m : M A) (h : exn -> M A) : M A := fun s =>
  match m s with
  | (Ret a, s1, tr1) => (Ret a, s1, tr1)
  | (Raise e, s1, tr1) =>
      match h e s1 with
      | (r, s2, tr2) => (r, s2, tr1 ++ tr2)
      end
  end.

Definition get_user_states : M (gmap Z string) := fun s => (Ret (user_states s), s, []).

(** [user_states[user_id] = v] *)
Definition set_user_state (user_id : Z) (v : string) : M unit := fun s =>
  (Ret tt, mkProc (<[user_id := v]> (user_states s)) (http_calls s), []).

(** [del user_states[user_id]]: KeyError when the key is absent. *)
Definition del_user_state (user_id : Z) : M unit := fun s =>
  match user_states s !! user_id with
  | Some _ => (Ret tt, mkProc (delete user_id (user_states s)) (http_calls s), [])
  | None => (Raise (KeyError (JInt user_id)), s, [])
  end.

(** The state after [n] further HTTP calls. *)
Definition advance (n : nat) (s : proc) : proc :=
  mkProc (user_states s) (n + http_calls s)%nat.

(** The three components of a finished computation. *)
Definition outcome {A} (x : result A * proc * list effect) : result A := x.1.1.
Definition final {A} (x : result A * proc * list effect) : proc := x.1.2.
Definition effects {A} (x : result A * proc * list effect) : list effect := x.2.

Definition sleep (seconds : Z) : M unit := emit (Sleep seconds).
Definition log (lvl : level) (r : log_record) : M unit := emit (Log lvl r).

(** ** Inbound updates *)

Record message : Type := mkMessage {
  from_user : Z;       (* update.message.from_user.id *)
  text : string        (* update.message.text *)
}.

Record callback_query : Type := mkQuery {
  query_from_user : Z;     (* query.from_user.id *)
  data : option string     (* query.data *)
}.

(** An update as the handlers registered in [main] classify it.  The
    updates modelled are those that carry [update.message] (or a callback
    query): on an edited message or a channel post that a handler matches,
    lines 46 and 59 raise AttributeError before any effect or state change;
    such updates are outside this type. *)
Inductive update : Type :=
| StartCommand (m : message)        (* CommandHandler("start", start) *)
| ButtonPress (q : callback_query)  (* CallbackQueryHandler(button) *)
| TextMessage (m : message)         (* MessageHandler(filters.TEXT & ~filters.COMMAND, ...) *)
| OtherUpdate.                      (* matched by no handler *)

Section Service.

(** The inference service: the response to the n-th HTTP call of the process. *)
Variable net : nat -> http_result.

Definition http (request : effect) : M response := fun s =>
  match net (http_calls s) with
  | Response r => (Ret r, advance 1 s, [request])
  | NoResponse => (Raise RequestException, advance 1 s, [request])
  end.

(** ** [generate_image_from_prompt] (lines 77-117) *)

(** The [if]/[elif] chain on the polled body (lines 101-114).  [None] is
    [continue]; [Some v] is [return v], with [JNull] for Python's [None].
    [data["task_status"]] and [data["output_images"]] are evaluated once:
    [data] does not change between the source's repeated look-ups. *)
Definition interpret_status (task_id data : json) : M (option json) :=
  task_status ← lift (getitem data "task_status");
  if eq_str task_status "SUCCEED" then
    output_images ← lift (getitem data "output_images");
    if truthy output_images then
      first ← lift (getitem0 output_images);
      mret (Some first)
    else
      log WARNING (LogNoImageUrl data);;
      mret (Some JNull)
  else if eq_str task_status "FAILED" then
    log ERROR (LogJobFailed task_id data);;
    mret (Some JNull)
  else if eq_str task_status "RUNNING" || eq_str task_status "PENDING" then
    mret None
  else
    log WARNING (LogUnknownStatus task_id task_status);;
    mret (Some JNull).

(** The body of the [for] loop (lines 93-114). *)
Definition poll (task_id : json) : M (option json) :=
  sleep 5;;
  result ← http (Get task_id);
  lift (raise_for_status result);;
  data ← lift (response_json result);
  interpret_status task_id data.

(** [for _ in range(attempts): <poll>]; [None] when the range is exhausted. *)
Fixpoint poll_loop (attempts : nat) (task_id : json) : M (option json) :=
  match attempts with
  | O => mret None
  | S rest =>
      r ← poll task_id;
      match r with
      | Some v => mret (Some v)
      | None => poll_loop rest task_id
      end
  end.

Definition generate_image_from_prompt (prompt : string) : M json :=
  response ← http (Post prompt);
  lift (raise_for_status response);;
  reply ← lift (response_json response);
  task_id ← lift (getitem reply "task_id");
  r ← poll_loop 20 task_id;
  match r with
  | Some v => mret v
  | None =>
      log ERROR (LogTimeout task_id);;
      mret JNull
  end.

(** ** The handlers (lines 42-75) *)

Definition start (m : message) : M unit :=
  emit (ReplyText (from_user m) Greeting (Some start_keyboard)).

Definition button (q : callback_query) : M unit :=
  emit (Answer (query_from_user q));;
  match data q with
  | Some d =>
      if String.eqb d "generate_image" then
        set_user_state (query_from_user q) "waiting_for_prompt";;
        emit (EditMessageText (query_from_user q) AskPrompt)
      else mret tt
  | None => mret tt
  end.

(** [user_id in user_states and user_states[user_id] == "waiting_for_prompt"] *)
Definition awaiting (st : gmap Z string) (user_id : Z) : bool :=
  match st !! user_id with
  | Some v => String.eqb v "waiting_for_prompt"
  | None => false
  end.

Definition handle_message (m : message) : M unit :=
  let user_id := from_user m in
  st ← get_user_states;
  if awaiting st user_id then
    let prompt := text m in
    emit (ReplyText user_id (Starting prompt) None);;
    del_user_state user_id;;
    try_except
      (image_url ← generate_image_from_prompt prompt;
       if truthy image_url then
         emit (ReplyPhoto user_id image_url photo_caption)
       else
         emit (ReplyText user_id Failed None))
      (fun e =>
         log ERROR (LogGenerationError user_id e);;
         emit (ReplyText user_id ErrorOccurred None))
  else
    emit (ReplyText user_id PressButton None).

(** ** Dispatch ([main], lines 126-132) *)

Definition process_update (u : update) : M unit :=
  match u with
  | StartCommand m => start m
  | ButtonPress q => button q
  | TextMessage m => handle_message m
  | OtherUpdate => mret tt
  end.

(** Updates are processed one after the other, each to completion. *)
Fixpoint run (updates : list update) : M unit :=
  match updates with
  | [] => mret tt
  | u :: rest => process_update u;; run rest
  end.

End Service.

(** The state of a freshly started process: [user_states = {}] (line 40). *)
Definition initial : proc := mkProc ∅ 0.

(** ** Observations on a trace *)

Definition is_poll (e : effect) : bool := match e with Get _ => true | _ => false end.
Definition is_submission (e : effect) : bool := match e with Post _ => true | _ => false end.

(** Number of status polls (GET calls), of job submissions (POST calls). *)
Definition polls (tr : list effect) : nat := length (List.filter is_poll tr).
Definition submissions (tr : list effect) : nat := length (List.filter is_submission tr).

(** Seconds spent in [time.sleep]. *)
Fixpoint slept (tr : list effect) : Z :=
  match tr with
  | [] => 0
  | Sleep n :: rest => n + slept rest
  | _ :: rest => slept rest
  end.

(** The body of a response that passes [raise_for_status] and parses. *)
Definition ok_body (h : http_result) : option json :=
  match h with
  | Response r => if is_error_status (status_code r) then None else body r
  | NoResponse => None
  end.

(** ... and its [task_status], when it is a dict that has one. *)
Definition task_status_of (h : http_result) : option json :=
  match ok_body h with
  | Some d => match getitem d "task_status" with Ret v => Some v | Raise _ => None end
  | None => None
  end.

(** The response makes the loop [continue]: RUNNING or PENDING. *)
Definition continuing (h : http_result) : bool :=
  match task_status_of h with
  | Some v => eq_str v "RUNNING" || eq_str v "PENDING"
  | None => false
  end.

(** The effects of [n] polls that all continue. *)
Fixpoint waits (n : nat) (task_id : json) : list effect :=
  match n with
  | O => []
  | S k => Sleep 5 :: Get task_id :: waits k task_id
  end.

(** The effects of the polling loop: sleeping, polling and its own logging. *)
Definition polling_effect (e : effect) : bool :=
  match e with
  | Get _ | Sleep _ => true
  | Log _ (LogGenerationError _ _) => false
  | Log _ _ => true
  | _ => false
  end.

(** What [generate_image_from_prompt] makes of the loop's exit (lines 116-117). *)
Definition after_loop (task_id : json) (r : result (option json)) : result json * list effect :=
  match r with
  | Ret (Some v) => (Ret v, [])
  | Ret None => (Ret JNull, [Log ERROR (LogTimeout task_id)])
  | Raise e => (Raise e, [])
  end.

(** What [handle_message] does with the result of the job (lines 67-73). *)
Definition report (user_id : Z) (r : result json) : list effect :=
  match r with
  | Ret image_url =>
      if truthy image_url then [ReplyPhoto user_id image_url photo_caption]
      else [ReplyText user_id Failed None]
  | Raise e =>
      [Log ERROR (LogGenerationError user_id e); ReplyText user_id ErrorOccurred None]
  end.

(** [user_states] with the entry of [user_id] deleted (line 63). *)
Definition forget (user_id : Z) (s : proc) : proc :=
  mkProc (delete user_id (user_states s)) (http_calls s).

(** ** Jobs in the trace of the process *)

(** A prompt of [user_id] is accepted: the reply of line 62. *)
Definition is_acceptance (user_id : Z) (e : effect) : bool :=
  match e with
  | ReplyText u (Starting _) _ => Z.eqb u user_id
  | _ => false
  end.

Definition acceptances (user_id : Z) (tr : list effect) : nat :=
  length (List.filter (is_acceptance user_id) tr).

(** The update is a press of the trigger button by [user_id] (line 53). *)
Definition is_trigger (user_id : Z) (u : update) : bool :=
  match u with
  | ButtonPress q =>
      Z.eqb (query_from_user q) user_id &&
      match data q with
      | Some d => String.eqb d "generate_image"
      | None => false
      end
  | _ => false
  end.

Definition triggers (user_id : Z) (updates : list update) : nat :=
  length (List.filter (is_trigger user_id) updates).

(** The job is resolved: its result is reported to the user (lines 68, 70, 73). *)
Definition is_resolution (e : effect) : bool :=
  match e with
  | ReplyPhoto _ _ _ => true
  | ReplyText _ Failed _ => true
  | ReplyText _ ErrorOccurred _ => true
  | _ => false
  end.

Definition resolutions (tr : list effect) : nat := length (List.filter is_resolution tr).

(** Where the process stands with respect to generation jobs. *)
Inductive job_phase : Type :=
| NoJob                        (* no job outstanding *)
| Accepted (user_id : Z)       (* a prompt is accepted, its job not yet submitted *)
| Outstanding (user_id : Z).   (* the job is submitted and not yet resolved *)

(** The effects allowed in each phase.  While a job is outstanding only its
    own polling and its resolution are; a submission needs an acceptance. *)
Definition job_step (ph : job_phase) (e : effect) : option job_phase :=
  match ph, e with
  | NoJob, ReplyText u (Starting _) _ => Some (Accepted u)
  | NoJob, ReplyText _ (Greeting | AskPrompt | PressButton) _ => Some NoJob
  | NoJob, (Answer _ | EditMessageText _ _) => Some NoJob
  | Accepted u, Post _ => Some (Outstanding u)
  | Outstanding u, (Get _ | Sleep _) => Some (Outstanding u)
  | Outstanding u, Log _ (LogGenerationError u' _) =>
      if Z.eqb u u' then Some (Outstanding u) else None
  | Outstanding u, Log _ _ => Some (Outstanding u)
  | Outstanding u, (ReplyPhoto u' _ _ | ReplyText u' (Failed | ErrorOccurred) _) =>
      if Z.eqb u u' then Some NoJob else None
  | _, _ => None
  end.

Fixpoint job_scan (ph : job_phase) (tr : list effect) : option job_phase :=
  match tr with
  | [] => Some ph
  | e :: rest =>
      match job_step ph e with
      | Some ph' => job_scan ph' rest
      | None => None
      end
  end.

Definition outstanding (ph : job_phase) : nat :=
  match ph with
  | Outstanding _ => 1
  | _ => 0
  end.

Definition bool_to_nat (b : bool) : nat := if b then 1 else 0.

(** The result of the job of [user_id] is reported. *)
Definition is_resolution_of (user_id : Z) (e : effect) : bool :=
  match e with
  | ReplyPhoto u _ _ => Z.eqb u user_id
  | ReplyText u Failed _ => Z.eqb u user_id
  | ReplyText u ErrorOccurred _ => Z.eqb u user_id
  | _ => false
  end.

Definition resolutions_of (user_id : Z) (tr : list effect) : nat :=
  length (List.filter (is_resolution_of user_id) tr).

(** The phase holds an accepted, unresolved prompt of [user_id]. *)
Definition engaged (user_id : Z) (ph : job_phase) : nat :=
  match ph with
  | NoJob => 0
  | Accepted u | Outstanding u => bool_to_nat (Z.eqb u user_id)
  end.

(** A press of the trigger button by [user_id]. *)
Definition trigger_press (user_id : Z) : callback_query :=
  mkQuery user_id (Some "generate_image"%string).

(** The check-and-clear of the session entry, as the specification names
    it: what lines 60 and 63 of [handle_message] do to [user_states]. *)
Definition consume_if_awaiting (user_id : Z) (st : gmap Z string) : bool * gmap Z string :=
  if awaiting st user_id then (true, delete user_id st) else (false, st).

(** ** Example services and states *)

Definition demo_ok (d : json) : http_result := Response (mkResponse 200 (Some d)).

Definition demo_status (status : string) : json := JObj [("task_status"%string, JStr status)].

Definition demo_created : json := JObj [("task_id"%string, JStr "T1")].

Definition demo_succeed (images : list json) : json :=
  JObj [("task_status"%string, JStr "SUCCEED"); ("output_images"%string, JArr images)].

Definition demo_net (answers : list http_result) (rest : http_result) (n : nat) : http_result :=
  nth n answers rest.

Definition demo_waiting (user_id : Z) : proc :=
  mkProc (<[user_id := "waiting_for_prompt"%string]> ∅) 0.

(** ** Further observations *)

(** A call of the messaging collaborator. *)
Definition is_message (e : effect) : bool :=
  match e with
  | ReplyText _ _ _ | ReplyPhoto _ _ _ | Answer _ | EditMessageText _ _ => true
  | _ => false
  end.

Definition is_log (e : effect) : bool :=
  match e with
  | Log _ _ => true
  | _ => false
  end.

(** The user whose session entry the update can change. *)
Definition sender (u : update) : option Z :=
  match u with
  | StartCommand m => Some (from_user m)
  | ButtonPress q => Some (query_from_user q)
  | TextMessage m => Some (from_user m)
  | OtherUpdate => None
  end.

(** The update is a text message of [user_id]. *)
Definition is_text_of (user_id : Z) (u : update) : bool :=
  match u with
  | TextMessage m => Z.eqb (from_user m) user_id
  | _ => false
  end.

(** The update is a press of the trigger button, by any user. *)
Definition is_any_trigger (u : update) : bool :=
  match u with
  | ButtonPress q =>
      match data q with
      | Some d => String.eqb d "generate_image"
      | None => false
      end
  | _ => false
  end.

(** The update is a text message that [handle_message] accepts in state [s]. *)
Definition accepted_in (s : proc) (u : update) : bool :=
  match u with
  | TextMessage m => awaiting (user_states s) (from_user m)
  | _ => false
  end.

(** The trace of a polling loop for [task_id]: 5 seconds of sleep per poll,
    every poll asks for [task_id], and nothing is sent to the chat. *)
Definition paced (task_id : json) (tr : list effect) : Prop :=
  slept tr = 5 * Z.of_nat (polls tr) /\
  (forall t, In (Get t) tr -> t = task_id) /\
  List.filter is_message tr = [] /\
  submissions tr = 0%nat.

(** The update comes from [user_id]. *)
Definition is_from (user_id : Z) (u : update) : bool :=
  match sender u with
  | Some v => Z.eqb v user_id
  | None => false
  end.

(** Every entry of [user_states] holds the one value the code ever stores. *)
Definition only_waiting (st : gmap Z string) : Prop :=
  forall u v, st !! u = Some v -> v = "waiting_for_prompt"%string.

(** ** Start-up of the module (lines 17-40) *)

Inductive config_error : Type :=
| ApiKeyNotSet       (* logger.error, line 21 *)
| BotTokenNotSet.    (* logger.error, line 34 *)

Record config : Type := mkConfig {
  common_headers : list (string * string);
  TELEGRAM_BOT_TOKEN : option string     (* the value of os.environ.get *)
}.

Inductive startup_result : Type :=
| Exited (code : Z) (logged : config_error)   (* exit(code) after the log call *)
| Started (c : config) (s : proc).

(** [not v] for the value of [os.environ.get]: [None] and the empty string
    are falsy. *)
Definition unset (v : option string) : bool :=
  match v with
  | None => true
  | Some s => String.eqb s ""
  end.

(** The module-level code that runs on import, up to [user_states = {}].
    The f-string of line 26 formats [None] as "None". *)
Definition startup (environ : string -> option string) : startup_result :=
  let api_key := environ "MODEL_SCOPE_API_KEY"%string in
  if unset api_key then Exited 1 ApiKeyNotSet
  else
    let common_headers :=
      [("Authorization"%string,
        String.append "Bearer " (match api_key with Some k => k | None => "None"%string end));
       ("Content-Type"%string, "application/json"%string)] in
    let TELEGRAM_BOT_TOKEN := environ "TELEGRAM_BOT_TOKEN"%string in
    if unset TELEGRAM_BOT_TOKEN then Exited 1 BotTokenNotSet
    else
      Started (mkConfig common_headers TELEGRAM_BOT_TOKEN) (mkProc ∅ 0).

(** ** The handlers, effect by effect

    [handle_message] and [generate_image_from_prompt] once more, with every
    effect recorded together with the process state in which it is
    performed.  The code is the same, statement by statement; each primitive
    step is wrapped in [observe].  This shows what the process state is while
    a job runs, which the input-output behaviour of the handler does not. *)

Definition Obs (A : Type) : Type := proc -> result A * proc * list (effect * proc).

#[global] Instance Obs_ret : MRet Obs := fun A a s => (Ret a, s, []).

#[global] Instance Obs_bind : MBind Obs := fun A B k m s =>
  match m s with
  | (Ret a, s1, tr1) =>
      match k a s1 with
      | (r, s2, tr2) => (r, s2, tr1 ++ tr2)
      end
  | (Raise e, s1, tr1) => (Raise e, s1, tr1)
  end.

(** A primitive step: its effect, if any, is performed in the state the
    step starts in. *)
Definition observe {A} (m : M A) : Obs A := fun s =>
  match m s with
  | (r, s', tr) => (r, s', List.map (fun e => (e, s)) tr)
  end.

Definition try_except_observed {A} (m : Obs A) (h : exn -> Obs A) : Obs A := fun s =>
  match m s with
  | (Ret a, s1, tr1) => (Ret a, s1, tr1)
  | (Raise e, s1, tr1) =>
      match h e s1 with
      | (r, s2, tr2) => (r, s2, tr1 ++ tr2)
      end
  end.

(** Forgetting the recorded states. *)
Definition erase {A} (x : result A * proc * list (effect * proc))
  : result A * proc * list effect :=
  (x.1.1, x.1.2, List.map fst x.2).

Section Observed.

Variable net : nat -> http_result.

Definition interpret_status_observed (task_id data : json) : Obs (option json) :=
  task_status ← observe (lift (getitem data "task_status"));
  if eq_str task_status "SUCCEED" then
    output_images ← observe (lift (getitem data "output_images"));
    if truthy output_images then
      first ← observe (lift (getitem0 output_images));
      mret (Some first)
    else
      observe (log WARNING (LogNoImageUrl data));;
      mret (Some JNull)
  else if eq_str task_status "FAILED" then
    observe (log ERROR (LogJobFailed task_id data));;
    mret (Some JNull)
  else if eq_str task_status "RUNNING" || eq_str task_status "PENDING" then
    mret None
  else
    observe (log WARNING (LogUnknownStatus task_id task_status));;
    mret (Some JNull).

Definition poll_observed (task_id : json) : Obs (option json) :=
  observe (sleep 5);;
  result ← observe (http net (Get task_id));
  observe (lift (raise_for_status result));;
  data ← observe (lift (response_json result));
  interpret_status_observed task_id data.

Fixpoint poll_loop_observed (attempts : nat) (task_id : json) : Obs (option json) :=
  match attempts with
  | O => mret None
  | S rest =>
      r ← poll_observed task_id;
      match r with
      | Some v => mret (Some v)
      | None => poll_loop_observed rest task_id
      end
  end.

Definition generate_image_from_prompt_observed (prompt : string) : Obs json :=
  response ← observe (http net (Post prompt));
  observe (lift (raise_for_status response));;
  reply ← observe (lift (response_json response));
  task_id ← observe (lift (getitem reply "task_id"));
  r ← poll_loop_observed 20 task_id;
  match r with
  | Some v => mret v
  | None =>
      observe (log ERROR (LogTimeout task_id));;
      mret JNull
  end.

Definition handle_message_observed (m : message) : Obs unit :=
  let user_id := from_user m in
  st ← observe get_user_states;
  if awaiting st user_id then
    let prompt := text m in
    observe (emit (ReplyText user_id (Starting prompt) None));;
    observe (del_user_state user_id);;
    try_except_observed
      (image_url ← generate_image_from_prompt_observed prompt;
       if truthy image_url then
         observe (emit (ReplyPhoto user_id image_url photo_caption))
       else
         observe (emit (ReplyText user_id Failed None)))
      (fun e =>
         observe (log ERROR (LogGenerationError user_id e));;
         observe (emit (ReplyText user_id ErrorOccurred None)))
  else
    observe (emit (ReplyText user_id PressButton None)).

End Observed.

(** The computation [o] is [m] with the states recorded. *)
Definition records {A} (o : Obs A) (m : M A) : Prop := forall s, erase (o s) = m s.

(** The computation never changes [user_states]: it ends with the entries
    it started with, and performs each of its effects with them. *)
Definition keeps_sessions {A} (o : Obs A) : Prop :=
  forall s,
    user_states (o s).1.2 = user_states s /\
    forall e st, In (e, st) (o s).2 -> user_states st = user_states s.

(** * Proofs

    ** Computation rules for the polling loop *)

Ltac unfold_M :=
  unfold sleep, log; unfold mbind, mret, M_bind, M_ret, lift, emit, try_except,
    get_user_states, set_user_state, del_user_state, http, outcome, final, effects; cbn -[poll_loop].

Section ServiceFacts.

Variable net : nat -> http_result.

Lemma ok_body_inv h d :
  ok_body h = Some d ->
  exists r, h = Response r /\ is_error_status (status_code r) = false /\ body r = Some d.
Proof.
  destruct h as [|r]; simpl; [discriminate|].
  destruct (is_error_status (status_code r)) eqn:E; [discriminate|].
  intros H. exists r. auto.
Qed.

Lemma poll_ok task_id d s :
  ok_body (net (http_calls s)) = Some d ->
  poll net task_id s =
    let '(r, s', tr) := interpret_status task_id d (advance 1 s) in
    (r, s', Sleep 5 :: Get task_id :: tr).
Proof.
  intros H. apply ok_body_inv in H as (r & Hn & He & Hb).
  unfold poll, raise_for_status, response_json. unfold_M.
  rewrite Hn, He, Hb. simpl.
  destruct (interpret_status task_id d (advance 1 s)) as [[[o|e] s'] tr]; reflexivity.
Qed.

Lemma eq_str_true v s : eq_str v s = true -> v = JStr s.
Proof.
  destruct v; simpl; try discriminate.
  intros H. apply String.eqb_eq in H. congruence.
Qed.

Lemma interpret_status_continue task_id d v s :
  getitem d "task_status" = Ret v ->
  eq_str v "RUNNING" || eq_str v "PENDING" = true ->
  interpret_status task_id d s = (Ret None, s, []).
Proof.
  intros Hg Hv. unfold interpret_status. unfold_M. rewrite Hg.
  apply orb_true_iff in Hv as [Hv|Hv]; apply eq_str_true in Hv; subst v; reflexivity.
Qed.

Lemma poll_continue task_id s :
  continuing (net (http_calls s)) = true ->
  poll net task_id s = (Ret None, advance 1 s, [Sleep 5; Get task_id]).
Proof.
  unfold continuing, task_status_of.
  destruct (ok_body (net (http_calls s))) as [d|] eqn:Hd; [|discriminate].
  destruct (getitem d "task_status") as [v|] eqn:Hg; [|discriminate].
  intros Hv. rewrite (poll_ok _ _ _ Hd).
  rewrite (interpret_status_continue _ _ _ _ Hg Hv). reflexivity.
Qed.

Lemma advance_advance a b s : advance a (advance b s) = advance (a + b) s.
Proof. unfold advance. simpl. f_equal. lia. Qed.

Lemma advance_0 s : advance 0 s = s.
Proof. destruct s. reflexivity. Qed.

Lemma poll_loop_continue task_id j : forall n s,
  (forall i, (i < j)%nat -> continuing (net (i + http_calls s)) = true) ->
  poll_loop net (j + n) task_id s =
    let '(r, s', tr) := poll_loop net n task_id (advance j s) in
    (r, s', waits j task_id ++ tr).
Proof.
  induction j as [|j IH]; intros n s H.
  - simpl. rewrite advance_0. destruct (poll_loop net n task_id s) as [[r s'] tr]. reflexivity.
  - change (S j + n)%nat with (S (j + n)). cbn [poll_loop].
    unfold mbind at 1. unfold M_bind.
    rewrite poll_continue by (apply (H 0%nat); lia).
    rewrite IH.
    + rewrite advance_advance. replace (j + 1)%nat with (S j) by lia.
      destruct (poll_loop net n task_id (advance (S j) s)) as [[r s'] tr]. reflexivity.
    + intros i Hi. simpl. replace (i + S (http_calls s))%nat with (S i + http_calls s)%nat by lia.
      apply H. lia.
Qed.


Lemma poll_loop_step n task_id s :
  poll_loop net (S n) task_id s =
    match poll net task_id s with
    | (Ret (Some v), s1, tr1) => (Ret (Some v), s1, tr1)
    | (Ret None, s1, tr1) =>
        let '(r, s2, tr2) := poll_loop net n task_id s1 in (r, s2, tr1 ++ tr2)
    | (Raise e, s1, tr1) => (Raise e, s1, tr1)
    end.
Proof.
  cbn [poll_loop]. unfold mbind at 1. unfold M_bind.
  destruct (poll net task_id s) as [[[[v|]|e] s1] tr1]; try reflexivity.
  unfold mret, M_ret. rewrite app_nil_r. reflexivity.
Qed.

Lemma generate_ok prompt reply task_id s :
  ok_body (net (http_calls s)) = Some reply ->
  getitem reply "task_id" = Ret task_id ->
  generate_image_from_prompt net prompt s =
    let '(r, s', tr) := poll_loop net 20 task_id (advance 1 s) in
    ((after_loop task_id r).1, s', Post prompt :: tr ++ (after_loop task_id r).2).
Proof.
  intros H Ht. apply ok_body_inv in H as (r & Hn & He & Hb).
  unfold generate_image_from_prompt, raise_for_status, response_json. unfold_M.
  rewrite Hn, He, Hb, Ht. cbn -[poll_loop].
  destruct (poll_loop net 20 task_id (advance 1 s)) as [[[[v|]|e] s'] tr]; cbn -[poll_loop];
    rewrite ?app_nil_r; reflexivity.
Qed.

Lemma interpret_status_images task_id d x rest s :
  getitem d "task_status" = Ret (JStr "SUCCEED") ->
  getitem d "output_images" = Ret (JArr (x :: rest)) ->
  interpret_status task_id d s = (Ret (Some x), s, []).
Proof. intros H1 H2. unfold interpret_status. unfold_M. rewrite H1. simpl. rewrite H2. reflexivity. Qed.

Lemma interpret_status_truthy task_id d v s :
  getitem d "task_status" = Ret (JStr "SUCCEED") ->
  getitem d "output_images" = Ret v ->
  truthy v = true ->
  interpret_status task_id d s =
    (match getitem0 v with Ret x => Ret (Some x) | Raise e => Raise e end, s, []).
Proof.
  intros H1 H2 H3. unfold interpret_status. unfold_M. rewrite H1. simpl. rewrite H2. simpl.
  rewrite H3. destruct (getitem0 v); reflexivity.
Qed.

Lemma interpret_status_no_images task_id d s :
  getitem d "task_status" = Ret (JStr "SUCCEED") ->
  getitem d "output_images" = Ret (JArr []) ->
  interpret_status task_id d s = (Ret (Some JNull), s, [Log WARNING (LogNoImageUrl d)]).
Proof. intros H1 H2. unfold interpret_status. unfold_M. rewrite H1. simpl. rewrite H2. reflexivity. Qed.

Lemma interpret_status_no_key task_id d e s :
  getitem d "task_status" = Ret (JStr "SUCCEED") ->
  getitem d "output_images" = Raise e ->
  interpret_status task_id d s = (Raise e, s, []).
Proof. intros H1 H2. unfold interpret_status. unfold_M. rewrite H1. simpl. rewrite H2. reflexivity. Qed.

(** The job, when the POST succeeds with [task_id], the first [j] polls
    continue and poll [j+1] is answered with the body [d]. *)
Lemma generate_at_poll prompt reply task_id j d s :
  ok_body (net (http_calls s)) = Some reply ->
  getitem reply "task_id" = Ret task_id ->
  (j < 20)%nat ->
  (forall i, (i < j)%nat -> continuing (net (S i + http_calls s)) = true) ->
  ok_body (net (S j + http_calls s)) = Some d ->
  forall o s' tr,
  interpret_status task_id d (advance (2 + j) s) = (o, s', tr) ->
  o <> Ret None ->
  generate_image_from_prompt net prompt s =
    ((after_loop task_id o).1, s',
     Post prompt :: waits j task_id ++ Sleep 5 :: Get task_id :: tr).
Proof.
  intros Hp Ht Hj Hc Hd o s' tr Hi Ho.
  rewrite (generate_ok _ _ _ _ Hp Ht).
  replace 20%nat with (j + S (19 - j))%nat by lia.
  rewrite poll_loop_continue.
  2:{ intros i Hi'. simpl. replace (i + S (http_calls s))%nat with (S i + http_calls s)%nat by lia. auto. }
  rewrite advance_advance, poll_loop_step, poll_ok with (d := d).
  2:{ simpl. replace (j + 1 + http_calls s)%nat with (S j + http_calls s)%nat by lia. exact Hd. }
  rewrite advance_advance. replace (1 + (j + 1))%nat with (2 + j)%nat by lia.
  rewrite Hi.
  destruct o as [[v|]|e]; [| congruence |]; simpl; rewrite app_nil_r; reflexivity.
Qed.


(** *** Shape of the traces *)

Lemma polls_app a b : polls (a ++ b) = (polls a + polls b)%nat.
Proof. unfold polls. rewrite List.filter_app, length_app. reflexivity. Qed.

Lemma submissions_app a b : submissions (a ++ b) = (submissions a + submissions b)%nat.
Proof. unfold submissions. rewrite List.filter_app, length_app. reflexivity. Qed.

Lemma polling_no_submission tr : forallb polling_effect tr = true -> submissions tr = 0%nat.
Proof.
  induction tr as [|e tr IH]; [reflexivity|]. cbn [forallb].
  intros H. apply andb_true_iff in H as [He Htr].
  destruct e; try discriminate; apply IH; exact Htr.
Qed.

Lemma interpret_status_shape task_id d s :
  final (interpret_status task_id d s) = s /\
  forallb polling_effect (effects (interpret_status task_id d s)) = true /\
  polls (effects (interpret_status task_id d s)) = 0%nat.
Proof.
  unfold interpret_status. unfold_M.
  destruct (getitem d "task_status") as [v|e]; [|auto].
  destruct (eq_str v "SUCCEED").
  - destruct (getitem d "output_images") as [w|e]; [|auto]. cbn.
    destruct (truthy w); [|auto]. destruct (getitem0 w); auto.
  - destruct (eq_str v "FAILED"); [auto|].
    destruct (eq_str v "RUNNING" || eq_str v "PENDING"); auto.
Qed.

Lemma poll_shape task_id s :
  final (poll net task_id s) = advance 1 s /\
  exists tr, effects (poll net task_id s) = Sleep 5 :: Get task_id :: tr /\
    forallb polling_effect tr = true /\ polls tr = 0%nat.
Proof.
  destruct (ok_body (net (http_calls s))) as [d|] eqn:Hd.
  - rewrite (poll_ok _ _ _ Hd).
    destruct (interpret_status_shape task_id d (advance 1 s)) as (Hf & He & Hp).
    destruct (interpret_status task_id d (advance 1 s)) as [[r s'] tr].
    unfold final, effects in *. simpl in *. split; [exact Hf|]. exists tr. auto.
  - unfold poll, raise_for_status, response_json. unfold_M.
    unfold ok_body in Hd.
    destruct (net (http_calls s)) as [|r]; cbn.
    + split; [reflexivity|]. exists []. auto.
    + destruct (is_error_status (status_code r)); cbn.
      * split; [reflexivity|]. exists []. auto.
      * rewrite Hd. cbn. split; [reflexivity|]. exists []. auto.
Qed.

Lemma poll_loop_shape task_id n : forall s,
  exists k, (k <= n)%nat /\
    final (poll_loop net n task_id s) = advance k s /\
    forallb polling_effect (effects (poll_loop net n task_id s)) = true /\
    polls (effects (poll_loop net n task_id s)) = k.
Proof.
  induction n as [|n IH]; intros s.
  - exists 0%nat. cbn. rewrite advance_0. auto.
  - rewrite poll_loop_step.
    destruct (poll_shape task_id s) as (Hf & tr & He & Hpe & Hp).
    destruct (poll net task_id s) as [[r s1] tr1].
    unfold final, effects in Hf, He. simpl in Hf, He. subst s1 tr1.
    assert (Hone : forall (r' : result (option json)),
      (1 <= S n)%nat /\ final (r', advance 1 s, Sleep 5 :: Get task_id :: tr) = advance 1 s /\
      forallb polling_effect (effects (r', advance 1 s, Sleep 5 :: Get task_id :: tr)) = true /\
      polls (effects (r', advance 1 s, Sleep 5 :: Get task_id :: tr)) = 1%nat).
    { intros r'. unfold final, effects. cbn [fst snd]. repeat split; [lia | exact Hpe |].
      change (Sleep 5 :: Get task_id :: tr) with ([Sleep 5; Get task_id] ++ tr).
      rewrite polls_app, Hp. reflexivity. }
    destruct r as [[v|]|e]; [exists 1%nat; apply Hone | | exists 1%nat; apply Hone].
    destruct (IH (advance 1 s)) as (k & Hk & Hf' & Hpe' & Hp').
    destruct (poll_loop net n task_id (advance 1 s)) as [[r2 s2] tr2].
    unfold final, effects in *. simpl in Hf', Hpe', Hp'. cbn [fst snd].
    exists (S k). split; [lia|]. split.
    + rewrite Hf', advance_advance. f_equal. lia.
    + split.
      * rewrite forallb_app. cbn [forallb polling_effect]. rewrite Hpe, Hpe'. reflexivity.
      * rewrite polls_app.
        change (Sleep 5 :: Get task_id :: tr) with ([Sleep 5; Get task_id] ++ tr).
        rewrite polls_app, Hp, Hp'. reflexivity.
Qed.

Lemma generate_shape prompt s :
  exists tr, effects (generate_image_from_prompt net prompt s) = Post prompt :: tr /\
    forallb polling_effect tr = true /\ (polls tr <= 20)%nat /\
    final (generate_image_from_prompt net prompt s) = advance (1 + polls tr) s.
Proof.
  destruct (ok_body (net (http_calls s))) as [reply|] eqn:Hb.
  - destruct (getitem reply "task_id") as [task_id|e] eqn:Ht.
    + rewrite (generate_ok _ _ _ _ Hb Ht).
      destruct (poll_loop_shape task_id 20 (advance 1 s)) as (k & Hk & Hf & Hpe & Hp).
      destruct (poll_loop net 20 task_id (advance 1 s)) as [[r s'] tr].
      unfold final, effects in *. cbn [fst snd] in *.
      exists (tr ++ (after_loop task_id r).2). split; [reflexivity|].
      assert (Hlast : forallb polling_effect (after_loop task_id r).2 = true /\
                      polls (after_loop task_id r).2 = 0%nat).
      { destruct r as [[v|]|e]; cbn; auto. }
      destruct Hlast as [Hl1 Hl2].
      rewrite forallb_app, Hpe, Hl1, polls_app, Hp, Hl2, Hf, advance_advance.
      repeat split; [lia|]. f_equal. lia.
    + apply ok_body_inv in Hb as (r & Hn & He & Hb).
      unfold generate_image_from_prompt, raise_for_status, response_json. unfold_M.
      rewrite Hn, He, Hb, Ht. cbn. exists []; repeat split; cbn; lia.
  - unfold generate_image_from_prompt, raise_for_status, response_json. unfold_M.
    unfold ok_body in Hb.
    destruct (net (http_calls s)) as [|r]; cbn -[poll_loop].
    + exists []; repeat split; cbn; lia.
    + destruct (is_error_status (status_code r)); cbn -[poll_loop].
      * exists []; repeat split; cbn; lia.
      * rewrite Hb. cbn. exists []; repeat split; cbn; lia.
Qed.

(** *** The handlers *)

Lemma handle_message_reject m s :
  awaiting (user_states s) (from_user m) = false ->
  handle_message net m s = (Ret tt, s, [ReplyText (from_user m) PressButton None]).
Proof. intros H. unfold handle_message. unfold_M. rewrite H. reflexivity. Qed.

Lemma handle_message_accept m s :
  awaiting (user_states s) (from_user m) = true ->
  handle_message net m s =
    let '(r, s', tr) := generate_image_from_prompt net (text m) (forget (from_user m) s) in
    (Ret tt, s', ReplyText (from_user m) (Starting (text m)) None :: tr ++ report (from_user m) r).
Proof.
  intros H. unfold handle_message. unfold_M. rewrite H.
  unfold awaiting in H. destruct (user_states s !! from_user m) as [v|] eqn:Hl; [|discriminate].
  cbn -[generate_image_from_prompt]. fold (forget (from_user m) s).
  destruct (generate_image_from_prompt net (text m) (forget (from_user m) s)) as [[[v'|e] s'] tr];
    cbn -[generate_image_from_prompt].
  - destruct (truthy v'); reflexivity.
  - reflexivity.
Qed.

End ServiceFacts.
(** ** The handlers and the trace of a run *)

Section HandlerFacts.

Variable net : nat -> http_result.

Lemma job_scan_app ph a b :
  job_scan ph (a ++ b) =
    match job_scan ph a with
    | Some ph' => job_scan ph' b
    | None => None
    end.
Proof.
  revert ph. induction a as [|e a IH]; intros ph; [reflexivity|].
  cbn [app job_scan]. destruct (job_step ph e); [apply IH | reflexivity].
Qed.

Lemma job_scan_polling u tr :
  forallb polling_effect tr = true -> job_scan (Outstanding u) tr = Some (Outstanding u).
Proof.
  induction tr as [|e tr IH]; [reflexivity|]. cbn [forallb].
  intros H. apply andb_true_iff in H as [He Htr].
  destruct e as [| | |l r| | | |]; try discriminate; cbn [job_scan job_step]; auto.
  destruct r; try discriminate; cbn; auto.
Qed.

Lemma job_scan_report u r : job_scan (Outstanding u) (report u r) = Some NoJob.
Proof.
  destruct r as [v|e]; cbn; [destruct (truthy v)|]; cbn; repeat (rewrite Z.eqb_refl; cbn); reflexivity.
Qed.

Lemma job_scan_counts tr : forall ph ph',
  job_scan ph tr = Some ph' ->
  (submissions tr + outstanding ph = resolutions tr + outstanding ph')%nat.
Proof.
  induction tr as [|e tr IH]; intros ph ph' H.
  - cbn in H. injection H as <-. reflexivity.
  - cbn [job_scan] in H. destruct (job_step ph e) as [ph1|] eqn:Hs; [|discriminate].
    specialize (IH _ _ H). revert IH.
    unfold submissions, resolutions. cbn [List.filter].
    destruct ph, e as [| | |l r|u' t mk|u' ph0 c|u'|u' t]; cbn in Hs; try discriminate;
      try (destruct t; try discriminate);
      try (destruct r; try discriminate);
      try (destruct (Z.eqb _ _); try discriminate);
      injection Hs as <-; cbn; lia.
Qed.

Lemma process_update_jobs u s :
  outcome (process_update net u s) = Ret tt /\
  job_scan NoJob (effects (process_update net u s)) = Some NoJob.
Proof.
  destruct u as [m|q|m|]; cbn [process_update].
  - split; reflexivity.
  - unfold button. unfold_M. destruct (data q) as [d|]; cbn; [|split; reflexivity].
    destruct (String.eqb d "generate_image"); cbn; split; reflexivity.
  - destruct (awaiting (user_states s) (from_user m)) eqn:Ha.
    + rewrite (handle_message_accept net m s Ha).
      destruct (generate_shape net (text m) (forget (from_user m) s)) as (tr & He & Hpe & _ & _).
      destruct (generate_image_from_prompt net (text m) (forget (from_user m) s)) as [[r s'] tr0].
      unfold effects in He. cbn [snd] in He. subst tr0.
      unfold outcome, effects. cbn [fst snd]. split; [reflexivity|].
      cbn [job_scan job_step app]. rewrite job_scan_app, (job_scan_polling _ _ Hpe).
      apply job_scan_report.
    + rewrite (handle_message_reject net m s Ha). split; reflexivity.
  - split; reflexivity.
Qed.

Lemma run_cons u rest s :
  run net (u :: rest) s =
    let '(r, s', tr) := run net rest (final (process_update net u s)) in
    (r, s', effects (process_update net u s) ++ tr).
Proof.
  cbn [run]. unfold mbind, M_bind.
  destruct (process_update_jobs u s) as [Ho _].
  destruct (process_update net u s) as [[r s1] tr1].
  unfold outcome, final, effects in *. cbn [fst snd] in *. subst r.
  destruct (run net rest s1) as [[r2 s2] tr2]. reflexivity.
Qed.

Lemma run_jobs updates : forall s,
  outcome (run net updates s) = Ret tt /\
  job_scan NoJob (effects (run net updates s)) = Some NoJob.
Proof.
  induction updates as [|u rest IH]; intros s; [split; reflexivity|].
  rewrite run_cons.
  destruct (IH (final (process_update net u s))) as [Ho Hj].
  destruct (run net rest (final (process_update net u s))) as [[r s'] tr].
  unfold outcome, effects in *. cbn [fst snd] in *. split; [exact Ho|].
  rewrite job_scan_app. destruct (process_update_jobs u s) as [_ Hu].
  unfold effects in Hu. rewrite Hu. exact Hj.
Qed.


Lemma job_scan_counts_of user_id tr : forall ph ph',
  job_scan ph tr = Some ph' ->
  (acceptances user_id tr + engaged user_id ph =
   resolutions_of user_id tr + engaged user_id ph')%nat.
Proof.
  induction tr as [|e tr IH]; intros ph ph' H.
  - cbn in H. injection H as <-. reflexivity.
  - cbn [job_scan] in H. destruct (job_step ph e) as [ph1|] eqn:Hs; [|discriminate].
    specialize (IH _ _ H). revert IH.
    unfold acceptances, resolutions_of. cbn [List.filter].
    destruct ph as [|u|u], e as [| | |l r|u' t mk|u' ph0 c|u'|u' t]; cbn in Hs; try discriminate;
      try (destruct t; try discriminate);
      try (destruct r; try discriminate);
      try (match type of Hs with
           | context [Z.eqb ?a ?b] => destruct (Z.eqb_spec a b); try discriminate; subst
           end);
      injection Hs as <-; cbn;
      try (destruct (Z.eqb _ user_id)); cbn; lia.
Qed.

Lemma job_scan_prefix ph tr ph' n :
  job_scan ph tr = Some ph' -> exists ph1, job_scan ph (firstn n tr) = Some ph1.
Proof.
  intros H. rewrite <- (firstn_skipn n tr), job_scan_app in H.
  destruct (job_scan ph (firstn n tr)) as [ph1|]; [eauto | discriminate].
Qed.

Lemma handle_message_submissions m s :
  submissions (effects (handle_message net m s)) =
    bool_to_nat (awaiting (user_states s) (from_user m)).
Proof.
  destruct (awaiting (user_states s) (from_user m)) eqn:Ha.
  - rewrite (handle_message_accept net m s Ha).
    destruct (generate_shape net (text m) (forget (from_user m) s)) as (tr & He & Hpe & _ & _).
    destruct (generate_image_from_prompt net (text m) (forget (from_user m) s)) as [[r s'] tr0].
    unfold effects in *. cbn [snd] in *. subst tr0.
    change (ReplyText (from_user m) (Starting (text m)) None :: (Post (text m) :: tr) ++
              report (from_user m) r)
      with ([ReplyText (from_user m) (Starting (text m)) None; Post (text m)] ++ tr ++
              report (from_user m) r).
    rewrite !submissions_app, (polling_no_submission _ Hpe).
    destruct r as [v|e]; cbn; [destruct (truthy v)|]; reflexivity.
  - rewrite (handle_message_reject net m s Ha). reflexivity.
Qed.

(** *** Session entries *)

Lemma awaiting_delete st u v :
  awaiting (delete u st) v = if Z.eqb u v then false else awaiting st v.
Proof.
  unfold awaiting. destruct (Z.eqb_spec u v) as [->|Hne].
  - rewrite lookup_delete_eq. reflexivity.
  - rewrite lookup_delete_ne by exact Hne. reflexivity.
Qed.

Lemma awaiting_insert st u v :
  awaiting (<[u := "waiting_for_prompt"%string]> st) v =
    if Z.eqb u v then true else awaiting st v.
Proof.
  unfold awaiting. destruct (Z.eqb_spec u v) as [->|Hne].
  - rewrite lookup_insert_eq. reflexivity.
  - rewrite lookup_insert_ne by exact Hne. reflexivity.
Qed.

Lemma generate_frame prompt s :
  user_states (final (generate_image_from_prompt net prompt s)) = user_states s.
Proof.
  destruct (generate_shape net prompt s) as (tr & _ & _ & _ & Hf). rewrite Hf. reflexivity.
Qed.

Lemma poll_loop_frame n task_id s :
  user_states (final (poll_loop net n task_id s)) = user_states s.
Proof.
  destruct (poll_loop_shape net task_id n s) as (k & _ & Hf & _). rewrite Hf. reflexivity.
Qed.

Lemma handle_message_final m s :
  user_states (final (handle_message net m s)) =
    if awaiting (user_states s) (from_user m) then delete (from_user m) (user_states s)
    else user_states s.
Proof.
  destruct (awaiting (user_states s) (from_user m)) eqn:Ha.
  - rewrite (handle_message_accept net m s Ha).
    pose proof (generate_frame (text m) (forget (from_user m) s)) as Hf.
    destruct (generate_image_from_prompt net (text m) (forget (from_user m) s)) as [[r s'] tr].
    exact Hf.
  - rewrite (handle_message_reject net m s Ha). reflexivity.
Qed.

Lemma button_trigger u s :
  button (trigger_press u) s =
    (Ret tt, mkProc (<[u := "waiting_for_prompt"%string]> (user_states s)) (http_calls s),
     [Answer u; EditMessageText u AskPrompt]).
Proof. reflexivity. Qed.

(** *** Acceptances and triggers *)

Lemma acceptances_app u a b : acceptances u (a ++ b) = (acceptances u a + acceptances u b)%nat.
Proof. unfold acceptances. rewrite List.filter_app, length_app. reflexivity. Qed.

Lemma polling_no_acceptance u tr : forallb polling_effect tr = true -> acceptances u tr = 0%nat.
Proof.
  induction tr as [|e tr IH]; [reflexivity|]. cbn [forallb].
  intros H. apply andb_true_iff in H as [He Htr].
  destruct e; try discriminate; apply IH; exact Htr.
Qed.

Lemma report_no_acceptance u v r : acceptances u (report v r) = 0%nat.
Proof. destruct r as [x|e]; cbn; [destruct (truthy x)|]; reflexivity. Qed.

Lemma process_update_accepts u upd s :
  (acceptances u (effects (process_update net upd s)) +
   bool_to_nat (awaiting (user_states (final (process_update net upd s))) u)
   <= bool_to_nat (is_trigger u upd) + bool_to_nat (awaiting (user_states s) u))%nat.
Proof.
  destruct upd as [m|q|m|]; cbn [process_update].
  - cbn. lia.
  - unfold button. unfold_M. destruct q as [v [d|]]; cbn; [|lia].
    destruct (String.eqb d "generate_image"); cbn.
    + rewrite awaiting_insert, andb_true_r. destruct (Z.eqb v u); cbn; lia.
    + rewrite andb_false_r. cbn. lia.
  - cbn [is_trigger bool_to_nat]. rewrite handle_message_final.
    destruct (awaiting (user_states s) (from_user m)) eqn:Ha.
    + rewrite (handle_message_accept net m s Ha).
      destruct (generate_shape net (text m) (forget (from_user m) s)) as (tr & He & Hpe & _ & _).
      destruct (generate_image_from_prompt net (text m) (forget (from_user m) s)) as [[r s'] tr0].
      unfold effects in *. cbn [snd] in *. subst tr0.
      change (ReplyText (from_user m) (Starting (text m)) None :: (Post (text m) :: tr) ++
                report (from_user m) r)
        with ([ReplyText (from_user m) (Starting (text m)) None; Post (text m)] ++ tr ++
                report (from_user m) r).
      rewrite !acceptances_app, (polling_no_acceptance _ _ Hpe), report_no_acceptance.
      rewrite awaiting_delete. unfold acceptances. cbn.
      destruct (Z.eqb_spec (from_user m) u) as [<-|Hne]; [rewrite Ha|]; cbn; lia.
    + rewrite (handle_message_reject net m s Ha). cbn. lia.
  - cbn. lia.
Qed.

Lemma run_accepts u updates : forall s,
  (acceptances u (effects (run net updates s)) +
   bool_to_nat (awaiting (user_states (final (run net updates s))) u)
   <= triggers u updates + bool_to_nat (awaiting (user_states s) u))%nat.
Proof.
  induction updates as [|upd rest IH]; intros s; [cbn; lia|].
  rewrite run_cons.
  specialize (IH (final (process_update net upd s))).
  pose proof (process_update_accepts u upd s) as Hu.
  destruct (run net rest (final (process_update net upd s))) as [[r s'] tr].
  unfold final, effects in *. cbn [fst snd] in *.
  rewrite acceptances_app. unfold triggers in *. cbn [List.filter].
  destruct (is_trigger u upd); cbn [length bool_to_nat] in *; lia.
Qed.

End HandlerFacts.
(** * The claims

    ** Properties of [generate_image_from_prompt] *)

(** C2.  When job creation yields a task id and the status polls answer
    PENDING, then RUNNING, then SUCCEED with [output_images = ["u"]],
    [generate_image_from_prompt] returns "u" after exactly 3 status polls.
    The loop sleeps 5 seconds before each of the three polls, so 15 seconds
    of sleep lie between the submission and the return: at least the 10
    seconds of the claim. *)
Theorem generate_pending_running_succeed
    (net : nat -> http_result) (prompt : string) (s : proc) (reply task_id d : json) :
  ok_body (net (http_calls s)) = Some reply ->
  getitem reply "task_id" = Ret task_id ->
  task_status_of (net (1 + http_calls s)%nat) = Some (JStr "PENDING") ->
  task_status_of (net (2 + http_calls s)%nat) = Some (JStr "RUNNING") ->
  ok_body (net (3 + http_calls s)%nat) = Some d ->
  getitem d "task_status" = Ret (JStr "SUCCEED") ->
  getitem d "output_images" = Ret (JArr [JStr "u"]) ->
  outcome (generate_image_from_prompt net prompt s) = Ret (JStr "u") /\
  effects (generate_image_from_prompt net prompt s) =
    [Post prompt; Sleep 5; Get task_id; Sleep 5; Get task_id; Sleep 5; Get task_id] /\
  polls (effects (generate_image_from_prompt net prompt s)) = 3%nat /\
  slept (effects (generate_image_from_prompt net prompt s)) = 15 /\
  10 <= slept (effects (generate_image_from_prompt net prompt s)).
Proof.
  intros Hp Ht H1 H2 Hd Hs Hi.
  assert (Hc : forall i, (i < 2)%nat -> continuing (net (S i + http_calls s)%nat) = true).
  { intros i Hi'. unfold continuing.
    destruct i as [|[|i]]; [rewrite H1 | rewrite H2 | lia]; reflexivity. }
  rewrite (generate_at_poll net prompt reply task_id 2 d s Hp Ht ltac:(lia) Hc Hd
             (Ret (Some (JStr "u"))) (advance 4 s) []
             (interpret_status_images task_id d _ _ _ Hs Hi) ltac:(discriminate)).
  unfold outcome, effects. cbn. repeat split; lia.
Qed.

Lemma generate_pending_running_succeed_witness :
  outcome (generate_image_from_prompt
    (demo_net [demo_ok demo_created; demo_ok (demo_status "PENDING");
               demo_ok (demo_status "RUNNING")] (demo_ok (demo_succeed [JStr "u"])))
    "cat" initial) = Ret (JStr "u").
Proof.
  refine (proj1 (generate_pending_running_succeed _ "cat" initial demo_created (JStr "T1")
            (demo_succeed [JStr "u"]) _ _ _ _ _ _ _)); reflexivity.
Defined.

Lemma log_not_in_waits lvl r n task_id : ~ In (Log lvl r) (waits n task_id).
Proof.
  induction n as [|n IH]; cbn; [tauto|].
  intros [H|[H|H]]; [discriminate | discriminate | exact (IH H)].
Qed.

Lemma handle_message_acceptances (net : nat -> http_result) m s :
  acceptances (from_user m) (effects (handle_message net m s)) =
    bool_to_nat (awaiting (user_states s) (from_user m)).
Proof.
  destruct (awaiting (user_states s) (from_user m)) eqn:Ha.
  - rewrite (handle_message_accept net m s Ha).
    destruct (generate_shape net (text m) (forget (from_user m) s)) as (tr & He & Hpe & _ & _).
    destruct (generate_image_from_prompt net (text m) (forget (from_user m) s)) as [[r s'] tr0].
    unfold effects in *. cbn [snd] in *. subst tr0.
    change (ReplyText (from_user m) (Starting (text m)) None :: (Post (text m) :: tr) ++
              report (from_user m) r)
      with ([ReplyText (from_user m) (Starting (text m)) None; Post (text m)] ++ tr ++
              report (from_user m) r).
    rewrite !acceptances_app, (polling_no_acceptance _ _ Hpe), report_no_acceptance.
    unfold acceptances. cbn. rewrite Z.eqb_refl. reflexivity.
  - rewrite (handle_message_reject net m s Ha). reflexivity.
Qed.

Lemma polls_waits n task_id : polls (waits n task_id) = n.
Proof. induction n as [|n IH]; [reflexivity|]. cbn [waits]. unfold polls in *. cbn. rewrite IH. reflexivity. Qed.

Lemma generate_polls_bound (net : nat -> http_result) prompt s :
  (polls (effects (generate_image_from_prompt net prompt s)) <= 20)%nat.
Proof.
  destruct (generate_shape net prompt s) as (tr & He & _ & Hp & _).
  rewrite He. change (Post prompt :: tr) with ([Post prompt] ++ tr).
  rewrite polls_app. cbn. exact Hp.
Qed.

(** C4.  The polling loop never makes more than 20 status polls, whatever the
    service answers.  When job creation yields a task id and every poll answers
    RUNNING, exactly 20 polls are made, the timeout is logged (line 116) and
    the result is [None]. *)
Theorem generate_times_out_after_20_polls (net : nat -> http_result) (prompt : string) (s : proc) :
  (polls (effects (generate_image_from_prompt net prompt s)) <= 20)%nat /\
  forall reply task_id,
    ok_body (net (http_calls s)) = Some reply ->
    getitem reply "task_id" = Ret task_id ->
    (forall i, (i < 20)%nat ->
       task_status_of (net (S i + http_calls s)%nat) = Some (JStr "RUNNING")) ->
    generate_image_from_prompt net prompt s =
      (Ret JNull, advance 21 s,
       Post prompt :: waits 20 task_id ++ [Log ERROR (LogTimeout task_id)]) /\
    polls (effects (generate_image_from_prompt net prompt s)) = 20%nat.
Proof.
  split; [apply generate_polls_bound|].
  intros reply task_id Hp Ht Hr.
  assert (Heq : generate_image_from_prompt net prompt s =
      (Ret JNull, advance 21 s,
       Post prompt :: waits 20 task_id ++ [Log ERROR (LogTimeout task_id)])).
  { rewrite (generate_ok net _ _ _ _ Hp Ht).
    change 20%nat with (20 + 0)%nat at 1.
    rewrite poll_loop_continue.
    - cbn [poll_loop]. unfold mret, M_ret. rewrite advance_advance, app_nil_r. reflexivity.
    - intros i Hi. cbn [advance http_calls].
      replace (i + (1 + http_calls s))%nat with (S i + http_calls s)%nat by lia.
      unfold continuing. rewrite (Hr i Hi). reflexivity. }
  split; [exact Heq|].
  rewrite Heq. unfold effects. cbn [snd].
  change (Post prompt :: waits 20 task_id ++ [Log ERROR (LogTimeout task_id)])
    with ([Post prompt] ++ waits 20 task_id ++ [Log ERROR (LogTimeout task_id)]).
  rewrite !polls_app, polls_waits. reflexivity.
Qed.

Lemma generate_times_out_after_20_polls_witness :
  generate_image_from_prompt (demo_net [demo_ok demo_created] (demo_ok (demo_status "RUNNING")))
    "cat" initial =
    (Ret JNull, advance 21 initial,
     Post "cat" :: waits 20 (JStr "T1") ++ [Log ERROR (LogTimeout (JStr "T1"))]) /\
  polls (effects (generate_image_from_prompt
    (demo_net [demo_ok demo_created] (demo_ok (demo_status "RUNNING"))) "cat" initial)) = 20%nat.
Proof.
  refine (proj2 (generate_times_out_after_20_polls _ "cat" initial) demo_created (JStr "T1") _ _ _).
  - reflexivity.
  - reflexivity.
  - intros i Hi. do 20 (destruct i as [|i]; [reflexivity|]). lia.
Defined.

(** C5.  When the job-creation call is answered with an error status (4xx or
    5xx), [generate_image_from_prompt] raises the very [HTTPError] that
    [raise_for_status] raises, instead of returning [None], and no status
    poll is made: the POST is its only effect. *)
Theorem generate_propagates_creation_error
    (net : nat -> http_result) (prompt : string) (s : proc) (r : response) :
  net (http_calls s) = Response r ->
  is_error_status (status_code r) = true ->
  raise_for_status r = Raise (HTTPError (status_code r)) /\
  generate_image_from_prompt net prompt s =
    (Raise (HTTPError (status_code r)), advance 1 s, [Post prompt]) /\
  polls (effects (generate_image_from_prompt net prompt s)) = 0%nat.
Proof.
  intros Hn He.
  assert (Heq : generate_image_from_prompt net prompt s =
    (Raise (HTTPError (status_code r)), advance 1 s, [Post prompt])).
  { unfold generate_image_from_prompt, raise_for_status. unfold_M. rewrite Hn, He. reflexivity. }
  split; [unfold raise_for_status; rewrite He; reflexivity|].
  split; [exact Heq|]. rewrite Heq. reflexivity.
Qed.

Lemma generate_propagates_creation_error_witness :
  generate_image_from_prompt (demo_net [] (Response (mkResponse 503 None))) "cat" initial =
    (Raise (HTTPError 503), advance 1 initial, [Post "cat"]).
Proof.
  refine (proj1 (proj2 (generate_propagates_creation_error _ "cat" initial (mkResponse 503 None) _ _)));
    reflexivity.
Defined.

(** C6.  When a status poll (after any number [j < 20] of polls that continue)
    answers SUCCEED with a list as [output_images]: an empty list makes
    [generate_image_from_prompt] return [None] after logging the warning of
    line 105, without raising; a non-empty list makes it return the first
    entry. *)
Theorem generate_succeed_output_images
    (net : nat -> http_result) (prompt : string) (s : proc)
    (reply task_id d : json) (j : nat) (images : list json) :
  ok_body (net (http_calls s)) = Some reply ->
  getitem reply "task_id" = Ret task_id ->
  (j < 20)%nat ->
  (forall i, (i < j)%nat -> continuing (net (S i + http_calls s)%nat) = true) ->
  ok_body (net (S j + http_calls s)%nat) = Some d ->
  getitem d "task_status" = Ret (JStr "SUCCEED") ->
  getitem d "output_images" = Ret (JArr images) ->
  match images with
  | [] =>
      outcome (generate_image_from_prompt net prompt s) = Ret JNull /\
      effects (generate_image_from_prompt net prompt s) =
        Post prompt :: waits j task_id ++
          [Sleep 5; Get task_id; Log WARNING (LogNoImageUrl d)]
  | first :: _ =>
      outcome (generate_image_from_prompt net prompt s) = Ret first /\
      effects (generate_image_from_prompt net prompt s) =
        Post prompt :: waits j task_id ++ [Sleep 5; Get task_id]
  end.
Proof.
  intros Hp Ht Hj Hc Hd Hs Hi.
  destruct images as [|first rest].
  - rewrite (generate_at_poll net prompt reply task_id j d s Hp Ht Hj Hc Hd _ _ _
               (interpret_status_no_images task_id d _ Hs Hi) ltac:(discriminate)).
    split; reflexivity.
  - rewrite (generate_at_poll net prompt reply task_id j d s Hp Ht Hj Hc Hd _ _ _
               (interpret_status_images task_id d _ _ _ Hs Hi) ltac:(discriminate)).
    split; reflexivity.
Qed.

Lemma generate_succeed_output_images_witness :
  outcome (generate_image_from_prompt
    (demo_net [demo_ok demo_created; demo_ok (demo_status "RUNNING")] (demo_ok (demo_succeed [])))
    "cat" initial) = Ret JNull /\
  effects (generate_image_from_prompt
    (demo_net [demo_ok demo_created; demo_ok (demo_status "RUNNING")] (demo_ok (demo_succeed [])))
    "cat" initial) =
    Post "cat" :: waits 1 (JStr "T1") ++
      [Sleep 5; Get (JStr "T1"); Log WARNING (LogNoImageUrl (demo_succeed []))].
Proof.
  refine (generate_succeed_output_images _ "cat" initial demo_created (JStr "T1")
            (demo_succeed []) 1 [] _ _ _ _ _ _ _); try reflexivity.
  - lia.
  - intros i Hi. destruct i as [|i]; [reflexivity | lia].
Defined.

(** C9.  When a status poll answers with a dict whose [task_status] is SUCCEED
    and which has no [output_images] key, [generate_image_from_prompt] raises
    [KeyError("output_images")] instead of returning [None].  The anomaly
    path (the warning of line 105, then [None]) is only taken when the key is
    present with an empty value: one that [if data["output_images"]] tests
    false, for a list the empty list. *)
Theorem generate_succeed_without_output_images
    (net : nat -> http_result) (prompt : string) (s : proc)
    (reply task_id : json) (j : nat) (items : list (string * json)) :
  ok_body (net (http_calls s)) = Some reply ->
  getitem reply "task_id" = Ret task_id ->
  (j < 20)%nat ->
  (forall i, (i < j)%nat -> continuing (net (S i + http_calls s)%nat) = true) ->
  ok_body (net (S j + http_calls s)%nat) = Some (JObj items) ->
  dict_lookup "task_status" items = Some (JStr "SUCCEED") ->
  (dict_lookup "output_images" items = None ->
     outcome (generate_image_from_prompt net prompt s) = Raise (KeyError (JStr "output_images")) /\
     effects (generate_image_from_prompt net prompt s) =
       Post prompt :: waits j task_id ++ [Sleep 5; Get task_id]) /\
  (In (Log WARNING (LogNoImageUrl (JObj items))) (effects (generate_image_from_prompt net prompt s)) ->
     exists v, dict_lookup "output_images" items = Some v /\ truthy v = false /\
       forall images, v = JArr images -> images = []).
Proof.
  intros Hp Ht Hj Hc Hd Hs.
  assert (Hts : getitem (JObj items) "task_status" = Ret (JStr "SUCCEED")).
  { unfold getitem. rewrite Hs. reflexivity. }
  split.
  - intros Hno.
    assert (Hoi : getitem (JObj items) "output_images" = Raise (KeyError (JStr "output_images"))).
    { unfold getitem. rewrite Hno. reflexivity. }
    rewrite (generate_at_poll net prompt reply task_id j _ s Hp Ht Hj Hc Hd _ _ _
               (interpret_status_no_key task_id _ _ _ Hts Hoi) ltac:(discriminate)).
    split; reflexivity.
  - destruct (dict_lookup "output_images" items) as [v|] eqn:Hl.
    + intros Hin. exists v. split; [reflexivity|].
      destruct (truthy v) eqn:Htr;
        [exfalso | split; [reflexivity | intros [|x l] ->; [reflexivity | discriminate]]].
      assert (Hoi : getitem (JObj items) "output_images" = Ret v).
      { unfold getitem. rewrite Hl. reflexivity. }
      pose proof (interpret_status_truthy task_id _ _ (advance (2 + j) s) Hts Hoi Htr) as Hst.
      assert (Ho : match getitem0 v with Ret x => Ret (Some x) | Raise e => Raise e end
                   <> Ret None) by (destruct (getitem0 v); discriminate).
      rewrite (generate_at_poll net prompt reply task_id j _ s Hp Ht Hj Hc Hd _ _ _ Hst Ho) in Hin.
      unfold effects in Hin. cbn [snd] in Hin.
      destruct Hin as [Hin|Hin]; [discriminate|].
      apply in_app_or in Hin as [Hin|Hin]; [exact (log_not_in_waits _ _ _ _ Hin)|].
      cbn in Hin. destruct Hin as [Hin|[Hin|[]]]; discriminate.
    + intros Hin. exfalso.
      assert (Hoi : getitem (JObj items) "output_images" = Raise (KeyError (JStr "output_images"))).
      { unfold getitem. rewrite Hl. reflexivity. }
      rewrite (generate_at_poll net prompt reply task_id j _ s Hp Ht Hj Hc Hd _ _ _
                 (interpret_status_no_key task_id _ _ _ Hts Hoi) ltac:(discriminate)) in Hin.
      unfold effects in Hin. cbn [snd] in Hin.
      destruct Hin as [Hin|Hin]; [discriminate|].
      apply in_app_or in Hin as [Hin|Hin]; [exact (log_not_in_waits _ _ _ _ Hin)|].
      cbn in Hin. destruct Hin as [Hin|[Hin|[]]]; discriminate.
Qed.

Lemma generate_succeed_without_output_images_witness :
  outcome (generate_image_from_prompt
    (demo_net [demo_ok demo_created] (demo_ok (demo_status "SUCCEED"))) "cat" initial) =
    Raise (KeyError (JStr "output_images")) /\
  effects (generate_image_from_prompt
    (demo_net [demo_ok demo_created] (demo_ok (demo_status "SUCCEED"))) "cat" initial) =
    Post "cat" :: waits 0 (JStr "T1") ++ [Sleep 5; Get (JStr "T1")].
Proof.
  refine (proj1 (generate_succeed_without_output_images _ "cat" initial demo_created (JStr "T1") 0
            [("task_status"%string, JStr "SUCCEED")] _ _ _ _ _ _) _); try reflexivity.
  - lia.
  - intros i Hi. lia.
Defined.
(** ** Properties of the handlers *)

(** C1.  At most one generation job is outstanding at a time.  In the trace of
    every run the jobs follow one another: a submission (POST) only follows
    the acceptance of a prompt, and until the result of the job is reported to
    its user the process does nothing but poll, so no further prompt is
    accepted and no second job is submitted.  At every point of the trace the
    submissions exceed the resolutions by at most one, and for every user so
    do the accepted prompts.  A text message submits a job exactly when the
    sender's session is awaiting a prompt. *)
Theorem one_outstanding_job (net : nat -> http_result) :
  (forall updates s, job_scan NoJob (effects (run net updates s)) = Some NoJob) /\
  (forall updates s n,
     (submissions (firstn n (effects (run net updates s)))
      <= resolutions (firstn n (effects (run net updates s))) + 1)%nat) /\
  (forall updates s n user_id,
     (acceptances user_id (firstn n (effects (run net updates s)))
      <= resolutions_of user_id (firstn n (effects (run net updates s))) + 1)%nat) /\
  (forall m s,
     submissions (effects (handle_message net m s)) =
       bool_to_nat (awaiting (user_states s) (from_user m))).
Proof.
  split; [intros updates s; apply run_jobs|].
  split; [|split].
  - intros updates s n.
    destruct (job_scan_prefix NoJob _ NoJob n (proj2 (run_jobs net updates s))) as [ph Hph].
    pose proof (job_scan_counts _ _ _ Hph) as Hc. cbn [outstanding] in Hc.
    destruct ph; cbn [outstanding] in Hc; lia.
  - intros updates s n user_id.
    destruct (job_scan_prefix NoJob _ NoJob n (proj2 (run_jobs net updates s))) as [ph Hph].
    pose proof (job_scan_counts_of user_id _ _ _ Hph) as Hc. cbn [engaged] in Hc.
    destruct ph as [|u|u]; cbn [engaged] in Hc; try destruct (Z.eqb u user_id);
      cbn [bool_to_nat] in Hc; lia.
  - apply handle_message_submissions.
Qed.

(** C3.  For every user and every sequence of updates handled by a freshly
    started process, the prompts accepted from the user are at most as many as
    the user's presses of the trigger button.  Two text messages of one user in
    a row cannot both be accepted: after the first, the second gets the
    "press the button" reply and nothing else happens.  Acceptance in
    [handle_message] is the check-and-clear [consume_if_awaiting]. *)
Theorem prompt_accepted_once_per_trigger (net : nat -> http_result) :
  (forall updates user_id,
     (acceptances user_id (effects (run net updates initial)) <= triggers user_id updates)%nat) /\
  (forall user_id text1 text2 s,
     handle_message net (mkMessage user_id text2)
       (final (handle_message net (mkMessage user_id text1) s)) =
     (Ret tt, final (handle_message net (mkMessage user_id text1) s),
      [ReplyText user_id PressButton None])) /\
  (forall m s,
     acceptances (from_user m) (effects (handle_message net m s)) =
       bool_to_nat (consume_if_awaiting (from_user m) (user_states s)).1 /\
     user_states (final (handle_message net m s)) =
       (consume_if_awaiting (from_user m) (user_states s)).2).
Proof.
  split; [|split].
  - intros updates user_id.
    pose proof (run_accepts net user_id updates initial) as H.
    change (awaiting (user_states initial) user_id) with false in H.
    cbn [bool_to_nat] in H. lia.
  - intros user_id text1 text2 s.
    apply handle_message_reject. cbn [from_user].
    rewrite handle_message_final. cbn [from_user].
    destruct (awaiting (user_states s) user_id) eqn:Ha; [|exact Ha].
    rewrite awaiting_delete, Z.eqb_refl. reflexivity.
  - intros m s. rewrite handle_message_acceptances, handle_message_final.
    unfold consume_if_awaiting.
    destruct (awaiting (user_states s) (from_user m)); split; reflexivity.
Qed.

(** C7.  A text message from a user whose session is not awaiting a prompt is
    answered with the "press the button first" text, submits no job and leaves
    the process state, hence every session, unchanged. *)
Theorem text_without_trigger (net : nat -> http_result) (m : message) (s : proc) :
  awaiting (user_states s) (from_user m) = false ->
  handle_message net m s = (Ret tt, s, [ReplyText (from_user m) PressButton None]) /\
  render PressButton = "Нажмите 'Сгенерировать изображение', чтобы начать."%string /\
  submissions (effects (handle_message net m s)) = 0%nat /\
  final (handle_message net m s) = s.
Proof.
  intros Ha. rewrite (handle_message_reject net m s Ha). repeat split.
Qed.

Lemma text_without_trigger_witness :
  handle_message (demo_net [] NoResponse) (mkMessage 7 "cat") initial =
    (Ret tt, initial, [ReplyText 7 PressButton None]).
Proof.
  refine (proj1 (text_without_trigger (demo_net [] NoResponse) (mkMessage 7 "cat") initial _)).
  reflexivity.
Defined.

(** C8.  [handle_message] always returns normally, whatever the service does,
    and never touches the session entry of another user.  When the job of an
    accepted prompt raises [e], the handler logs the error and sends the
    generic error text as its last effects. *)
Theorem generation_errors_caught (net : nat -> http_result) (m : message) (s : proc) :
  outcome (handle_message net m s) = Ret tt /\
  (forall other, other <> from_user m ->
     user_states (final (handle_message net m s)) !! other = user_states s !! other) /\
  (awaiting (user_states s) (from_user m) = true ->
   forall e,
     outcome (generate_image_from_prompt net (text m) (forget (from_user m) s)) = Raise e ->
     effects (handle_message net m s) =
       ReplyText (from_user m) (Starting (text m)) None ::
       effects (generate_image_from_prompt net (text m) (forget (from_user m) s)) ++
       [Log ERROR (LogGenerationError (from_user m) e);
        ReplyText (from_user m) ErrorOccurred None]).
Proof.
  split; [|split].
  - apply (process_update_jobs net (TextMessage m) s).
  - intros other Hne. rewrite handle_message_final.
    destruct (awaiting (user_states s) (from_user m)); [|reflexivity].
    apply lookup_delete_ne. congruence.
  - intros Ha e He. rewrite (handle_message_accept net m s Ha).
    destruct (generate_image_from_prompt net (text m) (forget (from_user m) s)) as [[r s'] tr].
    unfold outcome in He. cbn [fst] in He. subst r. reflexivity.
Qed.

Lemma generation_errors_caught_witness :
  outcome (handle_message (demo_net [] NoResponse) (mkMessage 7 "cat")
             (mkProc (<[8 := "waiting_for_prompt"%string]> (user_states (demo_waiting 7))) 0)) = Ret tt /\
  user_states (final (handle_message (demo_net [] NoResponse) (mkMessage 7 "cat")
             (mkProc (<[8 := "waiting_for_prompt"%string]> (user_states (demo_waiting 7))) 0))) !! 8
    = Some "waiting_for_prompt"%string /\
  effects (handle_message (demo_net [] NoResponse) (mkMessage 7 "cat")
             (mkProc (<[8 := "waiting_for_prompt"%string]> (user_states (demo_waiting 7))) 0)) =
    [ReplyText 7 (Starting "cat") None; Post "cat";
     Log ERROR (LogGenerationError 7 RequestException); ReplyText 7 ErrorOccurred None].
Proof.
  pose proof (generation_errors_caught (demo_net [] NoResponse) (mkMessage 7 "cat")
    (mkProc (<[8 := "waiting_for_prompt"%string]> (user_states (demo_waiting 7))) 0))
    as (H1 & H2 & H3).
  split; [exact H1|]. split.
  - rewrite (H2 8); [reflexivity | discriminate].
  - rewrite (H3 eq_refl RequestException eq_refl). reflexivity.
Defined.

(** ** The handler, effect by effect *)

Lemma records_ret {A} (a : A) : records (mret (M := Obs) a) (mret (M := M) a).
Proof. intros s. reflexivity. Qed.

Lemma records_observe {A} (m : M A) : records (observe m) m.
Proof.
  intros s. unfold observe, erase. destruct (m s) as [[r s'] tr]. cbn [fst snd].
  rewrite List.map_map. cbn [fst]. rewrite List.map_id. reflexivity.
Qed.

Lemma records_bind {A B} (o : Obs A) (m : M A) (ko : A -> Obs B) (km : A -> M B) :
  records o m -> (forall a, records (ko a) (km a)) ->
  records (mbind (M := Obs) ko o) (mbind (M := M) km m).
Proof.
  intros Ho Hk s. unfold mbind, Obs_bind, M_bind. specialize (Ho s).
  destruct (o s) as [[r s1] tr], (m s) as [[r' s1'] tr'].
  unfold erase in Ho. cbn [fst snd] in Ho. injection Ho as -> -> <-.
  destruct r' as [a|e]; [|reflexivity].
  specialize (Hk a s1'). destruct (ko a s1') as [[r2 s2] tr2], (km a s1') as [[r2' s2'] tr2'].
  unfold erase in *. cbn [fst snd] in *. injection Hk as -> -> <-.
  rewrite List.map_app. reflexivity.
Qed.

Lemma records_try {A} (o : Obs A) (m : M A) (ho : exn -> Obs A) (hm : exn -> M A) :
  records o m -> (forall e, records (ho e) (hm e)) ->
  records (try_except_observed o ho) (try_except m hm).
Proof.
  intros Ho Hh s. unfold try_except_observed, try_except. specialize (Ho s).
  destruct (o s) as [[r s1] tr], (m s) as [[r' s1'] tr'].
  unfold erase in Ho. cbn [fst snd] in Ho. injection Ho as -> -> <-.
  destruct r' as [a|e]; [reflexivity|].
  specialize (Hh e s1'). destruct (ho e s1') as [[r2 s2] tr2], (hm e s1') as [[r2' s2'] tr2'].
  unfold erase in *. cbn [fst snd] in *. injection Hh as -> -> <-.
  rewrite List.map_app. reflexivity.
Qed.

Ltac records_step :=
  first
    [ apply records_ret
    | apply records_observe
    | apply records_bind; [|intros ?]
    | match goal with
      | |- records (if ?b then _ else _) _ => destruct b
      | |- records (match ?r with _ => _ end) _ => destruct r
      end ].

Lemma keeps_sessions_ret {A} (a : A) : keeps_sessions (mret (M := Obs) a).
Proof. intros s. split; [reflexivity | intros e st []]. Qed.

Lemma keeps_sessions_observe {A} (m : M A) :
  (forall s, user_states (final (m s)) = user_states s) -> keeps_sessions (observe m).
Proof.
  intros Hm s. specialize (Hm s). unfold observe. destruct (m s) as [[r s'] tr].
  cbn [fst snd]. split; [exact Hm|].
  intros e st Hin. apply in_map_iff in Hin as (e' & Heq & _). congruence.
Qed.

Lemma keeps_sessions_bind {A B} (o : Obs A) (ko : A -> Obs B) :
  keeps_sessions o -> (forall a, keeps_sessions (ko a)) ->
  keeps_sessions (mbind (M := Obs) ko o).
Proof.
  intros Ho Hk s. unfold mbind, Obs_bind. destruct (Ho s) as [H1 H2].
  destruct (o s) as [[r s1] tr]. cbn [fst snd] in *.
  destruct r as [a|e]; [|split; assumption].
  destruct (Hk a s1) as [K1 K2]. destruct (ko a s1) as [[r2 s2] tr2]. cbn [fst snd] in *.
  split; [congruence|].
  intros e st Hin. apply in_app_or in Hin as [Hin|Hin]; [eauto|].
  rewrite (K2 _ _ Hin). exact H1.
Qed.

Ltac keeps_step :=
  first
    [ apply keeps_sessions_ret
    | apply keeps_sessions_observe; intros ?; reflexivity
    | apply keeps_sessions_bind; [|intros ?]
    | match goal with
      | |- keeps_sessions (if ?b then _ else _) => destruct b
      | |- keeps_sessions (match ?r with _ => _ end) => destruct r
      end ].

Section ObservedFacts.

Variable net : nat -> http_result.

Lemma http_keeps request s : user_states (final (http net request s)) = user_states s.
Proof. unfold http. destruct (net (http_calls s)); reflexivity. Qed.

Lemma interpret_status_recorded task_id data :
  records (interpret_status_observed task_id data) (interpret_status task_id data).
Proof. unfold interpret_status_observed, interpret_status. repeat records_step. Qed.

Lemma poll_recorded task_id : records (poll_observed net task_id) (poll net task_id).
Proof.
  unfold poll_observed, poll.
  do 4 (apply records_bind; [apply records_observe | intros ?]).
  apply interpret_status_recorded.
Qed.

Lemma poll_loop_recorded task_id n :
  records (poll_loop_observed net n task_id) (poll_loop net n task_id).
Proof.
  induction n as [|n IH]; cbn [poll_loop_observed poll_loop]; [apply records_ret|].
  apply records_bind; [apply poll_recorded|]. intros [v|]; [apply records_ret | exact IH].
Qed.

Lemma generate_recorded prompt :
  records (generate_image_from_prompt_observed net prompt)
          (generate_image_from_prompt net prompt).
Proof.
  unfold generate_image_from_prompt_observed, generate_image_from_prompt.
  do 4 (apply records_bind; [apply records_observe | intros ?]).
  apply records_bind; [apply poll_loop_recorded|]. intros ?. repeat records_step.
Qed.

Lemma handle_message_recorded m :
  records (handle_message_observed net m) (handle_message net m).
Proof.
  unfold handle_message_observed, handle_message.
  apply records_bind; [apply records_observe | intros st].
  destruct (awaiting st (from_user m)); [|apply records_observe].
  do 2 (apply records_bind; [apply records_observe | intros ?]).
  apply records_try.
  - apply records_bind; [apply generate_recorded|]. intros ?. repeat records_step.
  - intros e. repeat records_step.
Qed.

Lemma interpret_status_keeps task_id data :
  keeps_sessions (interpret_status_observed task_id data).
Proof. unfold interpret_status_observed. repeat keeps_step. Qed.

Lemma poll_keeps task_id : keeps_sessions (poll_observed net task_id).
Proof.
  unfold poll_observed.
  apply keeps_sessions_bind; [keeps_step | intros ?].
  apply keeps_sessions_bind; [apply keeps_sessions_observe, http_keeps | intros ?].
  do 2 (apply keeps_sessions_bind; [keeps_step | intros ?]).
  apply interpret_status_keeps.
Qed.

Lemma poll_loop_keeps task_id n : keeps_sessions (poll_loop_observed net n task_id).
Proof.
  induction n as [|n IH]; cbn [poll_loop_observed]; [apply keeps_sessions_ret|].
  apply keeps_sessions_bind; [apply poll_keeps|]. intros [v|]; [apply keeps_sessions_ret | exact IH].
Qed.

Lemma generate_keeps prompt : keeps_sessions (generate_image_from_prompt_observed net prompt).
Proof.
  unfold generate_image_from_prompt_observed.
  apply keeps_sessions_bind; [apply keeps_sessions_observe, http_keeps | intros ?].
  do 3 (apply keeps_sessions_bind; [keeps_step | intros ?]).
  apply keeps_sessions_bind; [apply poll_loop_keeps | intros ?]. repeat keeps_step.
Qed.

Lemma http_first {B} request (k : response -> Obs B) s :
  exists rest, (mbind (M := Obs) k (observe (http net request)) s).2 = (request, s) :: rest.
Proof.
  unfold mbind, Obs_bind, observe, http.
  destruct (net (http_calls s)) as [|r]; cbn [List.map]; [eexists; reflexivity|].
  destruct (k r (advance 1 s)) as [[r2 s2] tr2]. eexists. reflexivity.
Qed.

(** The POST is the first thing a job does, in the state it is started in. *)
Lemma generate_starts_with_post prompt s :
  exists rest, (generate_image_from_prompt_observed net prompt s).2 = (Post prompt, s) :: rest.
Proof. unfold generate_image_from_prompt_observed. apply http_first. Qed.

End ObservedFacts.

(** C10.  When [handle_message] accepts a prompt it deletes the sender's
    session entry after the "starting" reply (line 62, sent while the entry is
    still there) and before the job is started: the POST, every sleep, every
    poll, every log call of the job and the reply that reports its result,
    whatever that result is, are performed in a state without the entry; in
    each of these states a press of the trigger button arms the session
    again.  The entry is absent when the handler ends. *)
Theorem prompt_acceptance_clears_session (net : nat -> http_result) (m : message) (s : proc) :
  awaiting (user_states s) (from_user m) = true ->
  erase (handle_message_observed net m s) = handle_message net m s /\
  (exists job,
     (handle_message_observed net m s).2 =
       (ReplyText (from_user m) (Starting (text m)) None, s) ::
       (Post (text m), forget (from_user m) s) :: job /\
     forall e st,
       In (e, st) ((Post (text m), forget (from_user m) s) :: job) ->
       user_states st !! from_user m = None /\
       awaiting (user_states (final (button (trigger_press (from_user m)) st)))
         (from_user m) = true) /\
  user_states (final (handle_message net m s)) !! from_user m = None.
Proof.
  intros Ha.
  split; [apply handle_message_recorded|].
  split; [|rewrite handle_message_final, Ha; apply lookup_delete_eq].
  assert (Hb : forall s0, awaiting (user_states (final (button (trigger_press (from_user m)) s0)))
                 (from_user m) = true).
  { intros s0. rewrite button_trigger. unfold final. cbn [fst snd user_states].
    rewrite awaiting_insert, Z.eqb_refl. reflexivity. }
  assert (Hst : forall st : proc,
            user_states st = user_states (forget (from_user m) s) ->
            user_states st !! from_user m = None).
  { intros st ->. apply lookup_delete_eq. }
  destruct (generate_keeps net (text m) (forget (from_user m) s)) as [K1 K2].
  destruct (generate_starts_with_post net (text m) (forget (from_user m) s)) as [rest Hrest].
  unfold handle_message_observed, try_except_observed, mbind, Obs_bind, observe,
    get_user_states, emit, log, del_user_state.
  cbn [fst snd List.map app]. rewrite Ha.
  unfold awaiting in Ha.
  destruct (user_states s !! from_user m) as [v|] eqn:Hl; [|discriminate].
  cbn [fst snd List.map app]. fold (forget (from_user m) s).
  destruct (generate_image_from_prompt_observed net (text m) (forget (from_user m) s))
    as [[r s1] tr].
  cbn [fst snd] in K1, K2, Hrest. subst tr.
  destruct r as [image_url|e].
  - exists (rest ++ [(if truthy image_url
                      then ReplyPhoto (from_user m) image_url photo_caption
                      else ReplyText (from_user m) Failed None, s1)]).
    split; [destruct (truthy image_url); reflexivity|].
    intros e st Hin. split; [|apply Hb]. apply Hst.
    rewrite app_comm_cons in Hin. apply in_app_or in Hin as [Hin|[Hin|[]]].
    + exact (K2 _ _ Hin).
    + injection Hin as _ <-. exact K1.
  - exists (rest ++ [(Log ERROR (LogGenerationError (from_user m) e), s1);
                     (ReplyText (from_user m) ErrorOccurred None, s1)]).
    split; [reflexivity|].
    intros e' st Hin. split; [|apply Hb]. apply Hst.
    rewrite app_comm_cons in Hin. apply in_app_or in Hin as [Hin|[Hin|[Hin|[]]]].
    + exact (K2 _ _ Hin).
    + injection Hin as _ <-. exact K1.
    + injection Hin as _ <-. exact K1.
Qed.

Lemma prompt_acceptance_clears_session_witness :
  erase (handle_message_observed
           (demo_net [demo_ok demo_created; demo_ok (demo_status "PENDING");
                      demo_ok (demo_status "RUNNING")] (demo_ok (demo_succeed [JStr "u"])))
           (mkMessage 7 "cat") (demo_waiting 7)) =
    handle_message
      (demo_net [demo_ok demo_created; demo_ok (demo_status "PENDING");
                 demo_ok (demo_status "RUNNING")] (demo_ok (demo_succeed [JStr "u"])))
      (mkMessage 7 "cat") (demo_waiting 7) /\
  (exists job,
     (handle_message_observed
        (demo_net [demo_ok demo_created; demo_ok (demo_status "PENDING");
                   demo_ok (demo_status "RUNNING")] (demo_ok (demo_succeed [JStr "u"])))
        (mkMessage 7 "cat") (demo_waiting 7)).2 =
       (ReplyText 7 (Starting "cat") None, demo_waiting 7) ::
       (Post "cat", forget 7 (demo_waiting 7)) :: job /\
     forall e st,
       In (e, st) ((Post "cat", forget 7 (demo_waiting 7)) :: job) ->
       user_states st !! 7 = None /\
       awaiting (user_states (final (button (trigger_press 7) st))) 7 = true) /\
  user_states (final (handle_message
      (demo_net [demo_ok demo_created; demo_ok (demo_status "PENDING");
                 demo_ok (demo_status "RUNNING")] (demo_ok (demo_succeed [JStr "u"])))
      (mkMessage 7 "cat") (demo_waiting 7))) !! 7 = None.
Proof.
  refine (prompt_acceptance_clears_session _ (mkMessage 7 "cat") (demo_waiting 7) _).
  reflexivity.
Defined.

(** The trace of the example, effect by effect: the entry of user 7 is there
    for the "starting" reply and gone from the POST on, through all three
    polls and the photo reply. *)
Example observed_example :
  List.map (fun x => (x.1, awaiting (user_states x.2) 7))
    (handle_message_observed
       (demo_net [demo_ok demo_created; demo_ok (demo_status "PENDING");
                  demo_ok (demo_status "RUNNING")] (demo_ok (demo_succeed [JStr "u"])))
       (mkMessage 7 "cat") (demo_waiting 7)).2 =
  [(ReplyText 7 (Starting "cat") None, true);
   (Post "cat", false);
   (Sleep 5, false); (Get (JStr "T1"), false);
   (Sleep 5, false); (Get (JStr "T1"), false);
   (Sleep 5, false); (Get (JStr "T1"), false);
   (ReplyPhoto 7 (JStr "u") photo_caption, false)].
Proof. reflexivity. Qed.

(** * Further properties

    ** The polling loop on the other answers of the service *)

Section PollingFacts.

Variable net : nat -> http_result.

(** The job, when the POST succeeds with [task_id], the first [j] polls
    continue and poll [j+1] ends the loop. *)
Lemma generate_ends_at_poll prompt reply task_id j s o s' tr :
  ok_body (net (http_calls s)) = Some reply ->
  getitem reply "task_id" = Ret task_id ->
  (j < 20)%nat ->
  (forall i, (i < j)%nat -> continuing (net (S i + http_calls s)) = true) ->
  poll net task_id (advance (1 + j) s) = (o, s', tr) ->
  o <> Ret None ->
  generate_image_from_prompt net prompt s =
    ((after_loop task_id o).1, s', Post prompt :: waits j task_id ++ tr).
Proof.
  intros Hp Ht Hj Hc Hpoll Ho.
  rewrite (generate_ok net _ _ _ _ Hp Ht).
  replace 20%nat with (j + S (19 - j))%nat by lia.
  rewrite poll_loop_continue.
  2:{ intros i Hi'. simpl. replace (i + S (http_calls s))%nat with (S i + http_calls s)%nat by lia. auto. }
  rewrite advance_advance, poll_loop_step.
  replace (j + 1)%nat with (1 + j)%nat by lia. rewrite Hpoll.
  destruct o as [[v|]|e]; [| congruence |]; simpl; rewrite app_nil_r; reflexivity.
Qed.

Lemma poll_http_error task_id s r :
  net (http_calls s) = Response r ->
  is_error_status (status_code r) = true ->
  poll net task_id s = (Raise (HTTPError (status_code r)), advance 1 s, [Sleep 5; Get task_id]).
Proof.
  intros Hn He. unfold poll, raise_for_status. unfold_M. rewrite Hn, He. reflexivity.
Qed.

Lemma poll_no_response task_id s :
  net (http_calls s) = NoResponse ->
  poll net task_id s = (Raise RequestException, advance 1 s, [Sleep 5; Get task_id]).
Proof. intros Hn. unfold poll. unfold_M. rewrite Hn. reflexivity. Qed.

Lemma interpret_status_failed task_id d s :
  getitem d "task_status" = Ret (JStr "FAILED") ->
  interpret_status task_id d s = (Ret (Some JNull), s, [Log ERROR (LogJobFailed task_id d)]).
Proof. intros H. unfold interpret_status. unfold_M. rewrite H. reflexivity. Qed.

Lemma interpret_status_unknown task_id d v s :
  getitem d "task_status" = Ret v ->
  eq_str v "SUCCEED" = false -> eq_str v "FAILED" = false ->
  eq_str v "RUNNING" = false -> eq_str v "PENDING" = false ->
  interpret_status task_id d s =
    (Ret (Some JNull), s, [Log WARNING (LogUnknownStatus task_id v)]).
Proof.
  intros H H1 H2 H3 H4. unfold interpret_status. unfold_M.
  rewrite H. cbn. rewrite H1, H2, H3, H4. reflexivity.
Qed.

Lemma interpret_status_no_status task_id d e s :
  getitem d "task_status" = Raise e ->
  interpret_status task_id d s = (Raise e, s, []).
Proof. intros H. unfold interpret_status. unfold_M. rewrite H. reflexivity. Qed.

(** Every way [interpret_status] can end. *)
Lemma interpret_status_inv task_id d s :
  final (interpret_status task_id d s) = s /\
  forallb is_log (effects (interpret_status task_id d s)) = true /\
  match outcome (interpret_status task_id d s) with
  | Ret None =>
      exists v, getitem d "task_status" = Ret v /\
        eq_str v "RUNNING" || eq_str v "PENDING" = true
  | Ret (Some x) =>
      x = JNull \/
      exists images, getitem d "task_status" = Ret (JStr "SUCCEED") /\
        getitem d "output_images" = Ret images /\ truthy images = true /\
        getitem0 images = Ret x
  | Raise _ => True
  end.
Proof.
  unfold interpret_status. unfold_M.
  destruct (getitem d "task_status") as [v|e] eqn:Hv; [|cbn; auto].
  destruct (eq_str v "SUCCEED") eqn:Hs.
  - apply eq_str_true in Hs. subst v.
    destruct (getitem d "output_images") as [w|e] eqn:Hw; cbn; [|auto].
    destruct (truthy w) eqn:Htw; cbn; [|auto].
    destruct (getitem0 w) as [x|e] eqn:Hx; cbn; [|auto].
    split; [reflexivity|]. split; [reflexivity|]. right. exists w. auto.
  - destruct (eq_str v "FAILED"); cbn; [auto|].
    destruct (eq_str v "RUNNING" || eq_str v "PENDING") eqn:Hc; cbn; [|auto].
    split; [reflexivity|]. split; [reflexivity|]. exists v. auto.
Qed.

Lemma poll_inv task_id s :
  final (poll net task_id s) = advance 1 s /\
  (exists logs, effects (poll net task_id s) = Sleep 5 :: Get task_id :: logs /\
     forallb is_log logs = true) /\
  match outcome (poll net task_id s) with
  | Ret None => continuing (net (http_calls s)) = true
  | Ret (Some x) =>
      x = JNull \/
      exists d images, ok_body (net (http_calls s)) = Some d /\
        getitem d "task_status" = Ret (JStr "SUCCEED") /\
        getitem d "output_images" = Ret images /\ truthy images = true /\
        getitem0 images = Ret x
  | Raise _ => True
  end.
Proof.
  destruct (ok_body (net (http_calls s))) as [d|] eqn:Hd.
  - rewrite (poll_ok net _ _ _ Hd).
    destruct (interpret_status_inv task_id d (advance 1 s)) as (Hf & Hl & Ho).
    destruct (interpret_status task_id d (advance 1 s)) as [[o s'] tr].
    unfold final, effects, outcome in *. cbn [fst snd] in *.
    split; [exact Hf|]. split; [exists tr; auto|].
    destruct o as [[x|]|e]; [| |exact I].
    + destruct Ho as [Ho|(images & H1 & H2 & H3 & H4)]; [left; exact Ho|].
      right. exists d, images. auto.
    + destruct Ho as (v & Hv & Hc). unfold continuing, task_status_of. rewrite Hd, Hv. exact Hc.
  - unfold poll, raise_for_status, response_json. unfold_M.
    unfold ok_body in Hd.
    destruct (net (http_calls s)) as [|r]; cbn.
    + split; [reflexivity|]. split; [exists []; auto | exact I].
    + destruct (is_error_status (status_code r)); cbn.
      * split; [reflexivity|]. split; [exists []; auto | exact I].
      * rewrite Hd. cbn. split; [reflexivity|]. split; [exists []; auto | exact I].
Qed.

Lemma slept_app a b : slept (a ++ b) = slept a + slept b.
Proof.
  induction a as [|e a IH]; [reflexivity|].
  destruct e; cbn [app slept]; rewrite IH; lia.
Qed.

Lemma paced_nil task_id : paced task_id [].
Proof. repeat split. intros t []. Qed.

Lemma paced_app task_id a b : paced task_id a -> paced task_id b -> paced task_id (a ++ b).
Proof.
  intros (Ha1 & Ha2 & Ha3 & Ha4) (Hb1 & Hb2 & Hb3 & Hb4). repeat split.
  - rewrite slept_app, polls_app, Ha1, Hb1. lia.
  - intros t Hin. apply in_app_or in Hin as [Hin|Hin]; auto.
  - rewrite List.filter_app, Ha3, Hb3. reflexivity.
  - rewrite submissions_app, Ha4, Hb4. reflexivity.
Qed.

Lemma paced_logs task_id logs : forallb is_log logs = true -> paced task_id logs.
Proof.
  induction logs as [|e logs IH]; [intros _; apply paced_nil|].
  cbn [forallb]. intros H. apply andb_true_iff in H as [He Hl].
  destruct e; try discriminate.
  apply (paced_app task_id [Log lvl r] logs); [|auto].
  repeat split. intros t [Hin|[]]. discriminate.
Qed.

Lemma paced_poll task_id s : paced task_id (effects (poll net task_id s)).
Proof.
  destruct (poll_inv task_id s) as (_ & (logs & He & Hl) & _). rewrite He.
  apply (paced_app task_id [Sleep 5; Get task_id] logs); [|apply paced_logs; exact Hl].
  repeat split. intros t [Hin|[Hin|[]]]; congruence.
Qed.

Lemma paced_poll_loop task_id n : forall s, paced task_id (effects (poll_loop net n task_id s)).
Proof.
  induction n as [|n IH]; intros s; [apply paced_nil|].
  rewrite poll_loop_step.
  pose proof (paced_poll task_id s) as Hp.
  destruct (poll_inv task_id s) as (Hf & _ & _).
  destruct (poll net task_id s) as [[r s1] tr1].
  unfold final, effects in Hf, Hp. cbn [fst snd] in Hf, Hp. subst s1.
  destruct r as [[v|]|e]; [exact Hp | | exact Hp].
  specialize (IH (advance 1 s)).
  destruct (poll_loop net n task_id (advance 1 s)) as [[r2 s2] tr2].
  unfold effects in *. cbn [snd] in *. apply paced_app; assumption.
Qed.

(** The loop returns a value other than [None] only from a poll that
    answered SUCCEED with a truthy [output_images], all polls before it
    having continued. *)
Lemma poll_loop_sound task_id n : forall s x,
  outcome (poll_loop net n task_id s) = Ret (Some x) ->
  x <> JNull ->
  exists j d images, (j < n)%nat /\
    (forall i, (i < j)%nat -> continuing (net (i + http_calls s)) = true) /\
    ok_body (net (j + http_calls s)) = Some d /\
    getitem d "task_status" = Ret (JStr "SUCCEED") /\
    getitem d "output_images" = Ret images /\ truthy images = true /\
    getitem0 images = Ret x.
Proof.
  induction n as [|n IH]; intros s x Ho Hx; [discriminate|].
  rewrite poll_loop_step in Ho.
  destruct (poll_inv task_id s) as (Hf & _ & Hpo).
  destruct (poll net task_id s) as [[r s1] tr1].
  unfold final, outcome in Hf, Hpo. cbn [fst snd] in Hf, Hpo. subst s1.
  destruct r as [[v|]|e].
  - unfold outcome in Ho. cbn in Ho. injection Ho as ->.
    destruct Hpo as [Hn|(d & images & H1 & H2 & H3 & H4 & H5)]; [contradiction|].
    exists 0%nat, d, images. repeat split; auto; [lia | intros i Hi; lia].
  - destruct (poll_loop net n task_id (advance 1 s)) as [[r2 s2] tr2] eqn:Hl.
    unfold outcome in Ho. cbn [fst] in Ho.
    destruct (IH (advance 1 s) x) as (j & d & images & Hj & Hc & Hrest); [rewrite Hl; exact Ho | exact Hx |].
    cbn [advance http_calls] in Hc, Hrest.
    exists (S j), d, images. split; [lia|]. split.
    + intros i Hi. destruct i as [|i]; [exact Hpo|].
      replace (S i + http_calls s)%nat with (i + (1 + http_calls s))%nat by lia.
      apply Hc. lia.
    + replace (S j + http_calls s)%nat with (j + (1 + http_calls s))%nat by lia. exact Hrest.
  - discriminate.
Qed.

End PollingFacts.

(** X1.  When a status poll (after [j < 20] polls that continue) answers
    FAILED, [generate_image_from_prompt] logs the error of line 108 and returns
    [None] at once: [j + 1] polls are made and the loop is left. *)
Theorem generate_job_failed
    (net : nat -> http_result) (prompt : string) (s : proc)
    (reply task_id d : json) (j : nat) :
  ok_body (net (http_calls s)) = Some reply ->
  getitem reply "task_id" = Ret task_id ->
  (j < 20)%nat ->
  (forall i, (i < j)%nat -> continuing (net (S i + http_calls s)%nat) = true) ->
  ok_body (net (S j + http_calls s)%nat) = Some d ->
  getitem d "task_status" = Ret (JStr "FAILED") ->
  generate_image_from_prompt net prompt s =
    (Ret JNull, advance (2 + j) s,
     Post prompt :: waits j task_id ++
       [Sleep 5; Get task_id; Log ERROR (LogJobFailed task_id d)]) /\
  polls (effects (generate_image_from_prompt net prompt s)) = S j.
Proof.
  intros Hp Ht Hj Hc Hd Hs.
  rewrite (generate_at_poll net prompt reply task_id j d s Hp Ht Hj Hc Hd _ _ _
             (interpret_status_failed task_id d _ Hs) ltac:(discriminate)).
  split; [reflexivity|]. unfold effects. cbn [snd].
  change (Post prompt :: waits j task_id ++ [Sleep 5; Get task_id; Log ERROR (LogJobFailed task_id d)])
    with ([Post prompt] ++ waits j task_id ++ [Sleep 5; Get task_id; Log ERROR (LogJobFailed task_id d)]).
  rewrite !polls_app, polls_waits. cbn. lia.
Qed.

Lemma generate_job_failed_witness :
  generate_image_from_prompt
    (demo_net [demo_ok demo_created; demo_ok (demo_status "PENDING")] (demo_ok (demo_status "FAILED")))
    "cat" initial =
    (Ret JNull, advance 3 initial,
     Post "cat" :: waits 1 (JStr "T1") ++
       [Sleep 5; Get (JStr "T1"); Log ERROR (LogJobFailed (JStr "T1") (demo_status "FAILED"))]).
Proof.
  refine (proj1 (generate_job_failed _ "cat" initial demo_created (JStr "T1")
            (demo_status "FAILED") 1 _ _ _ _ _ _)); try reflexivity.
  - lia.
  - intros i Hi. destruct i as [|i]; [reflexivity | lia].
Defined.

(** X2.  When a status poll answers with a [task_status] that is none of
    SUCCEED, FAILED, RUNNING and PENDING (a value that is not a string
    included), [generate_image_from_prompt] logs the warning of line 113 and
    returns [None] without polling again. *)
Theorem generate_unknown_status
    (net : nat -> http_result) (prompt : string) (s : proc)
    (reply task_id d v : json) (j : nat) :
  ok_body (net (http_calls s)) = Some reply ->
  getitem reply "task_id" = Ret task_id ->
  (j < 20)%nat ->
  (forall i, (i < j)%nat -> continuing (net (S i + http_calls s)%nat) = true) ->
  ok_body (net (S j + http_calls s)%nat) = Some d ->
  getitem d "task_status" = Ret v ->
  eq_str v "SUCCEED" = false -> eq_str v "FAILED" = false ->
  eq_str v "RUNNING" = false -> eq_str v "PENDING" = false ->
  generate_image_from_prompt net prompt s =
    (Ret JNull, advance (2 + j) s,
     Post prompt :: waits j task_id ++
       [Sleep 5; Get task_id; Log WARNING (LogUnknownStatus task_id v)]) /\
  polls (effects (generate_image_from_prompt net prompt s)) = S j.
Proof.
  intros Hp Ht Hj Hc Hd Hv H1 H2 H3 H4.
  rewrite (generate_at_poll net prompt reply task_id j d s Hp Ht Hj Hc Hd _ _ _
             (interpret_status_unknown task_id d v _ Hv H1 H2 H3 H4) ltac:(discriminate)).
  split; [reflexivity|]. unfold effects. cbn [snd].
  change (Post prompt :: waits j task_id ++ [Sleep 5; Get task_id; Log WARNING (LogUnknownStatus task_id v)])
    with ([Post prompt] ++ waits j task_id ++ [Sleep 5; Get task_id; Log WARNING (LogUnknownStatus task_id v)]).
  rewrite !polls_app, polls_waits. cbn. lia.
Qed.

Lemma generate_unknown_status_witness :
  generate_image_from_prompt
    (demo_net [demo_ok demo_created] (demo_ok (JObj [("task_status"%string, JInt 3)])))
    "cat" initial =
    (Ret JNull, advance 2 initial,
     Post "cat" :: waits 0 (JStr "T1") ++
       [Sleep 5; Get (JStr "T1"); Log WARNING (LogUnknownStatus (JStr "T1") (JInt 3))]).
Proof.
  refine (proj1 (generate_unknown_status _ "cat" initial demo_created (JStr "T1")
            (JObj [("task_status"%string, JInt 3)]) (JInt 3) 0 _ _ _ _ _ _ _ _ _ _));
    try reflexivity.
  - lia.
  - intros i Hi. lia.
Defined.

(** X3.  An error status (4xx or 5xx) on a status poll is not retried: the
    [HTTPError] of [raise_for_status] (line 98) leaves the loop and
    [generate_image_from_prompt], with that poll as the last effect. *)
Theorem generate_poll_http_error
    (net : nat -> http_result) (prompt : string) (s : proc)
    (reply task_id : json) (j : nat) (r : response) :
  ok_body (net (http_calls s)) = Some reply ->
  getitem reply "task_id" = Ret task_id ->
  (j < 20)%nat ->
  (forall i, (i < j)%nat -> continuing (net (S i + http_calls s)%nat) = true) ->
  net (S j + http_calls s)%nat = Response r ->
  is_error_status (status_code r) = true ->
  generate_image_from_prompt net prompt s =
    (Raise (HTTPError (status_code r)), advance (2 + j) s,
     Post prompt :: waits j task_id ++ [Sleep 5; Get task_id]).
Proof.
  intros Hp Ht Hj Hc Hn He.
  assert (Hpoll : poll net task_id (advance (1 + j) s) =
            (Raise (HTTPError (status_code r)), advance 1 (advance (1 + j) s), [Sleep 5; Get task_id])).
  { apply poll_http_error; [|exact He]. cbn [advance http_calls].
    replace (1 + j + http_calls s)%nat with (S j + http_calls s)%nat by lia. exact Hn. }
  rewrite (generate_ends_at_poll net prompt reply task_id j s _ _ _ Hp Ht Hj Hc Hpoll
             ltac:(discriminate)).
  rewrite advance_advance. reflexivity.
Qed.

Lemma generate_poll_http_error_witness :
  generate_image_from_prompt
    (demo_net [demo_ok demo_created; demo_ok (demo_status "RUNNING")]
       (Response (mkResponse 500 None)))
    "cat" initial =
    (Raise (HTTPError 500), advance 3 initial,
     Post "cat" :: waits 1 (JStr "T1") ++ [Sleep 5; Get (JStr "T1")]).
Proof.
  refine (generate_poll_http_error _ "cat" initial demo_created (JStr "T1") 1
            (mkResponse 500 None) _ _ _ _ _ _); try reflexivity.
  - lia.
  - intros i Hi. destruct i as [|i]; [reflexivity | lia].
Defined.

(** X4.  A status poll that gets no response (connection failure) raises out
    of [generate_image_from_prompt] as well: nothing around [requests.get]
    (line 94) catches it. *)
Theorem generate_poll_no_response
    (net : nat -> http_result) (prompt : string) (s : proc)
    (reply task_id : json) (j : nat) :
  ok_body (net (http_calls s)) = Some reply ->
  getitem reply "task_id" = Ret task_id ->
  (j < 20)%nat ->
  (forall i, (i < j)%nat -> continuing (net (S i + http_calls s)%nat) = true) ->
  net (S j + http_calls s)%nat = NoResponse ->
  generate_image_from_prompt net prompt s =
    (Raise RequestException, advance (2 + j) s,
     Post prompt :: waits j task_id ++ [Sleep 5; Get task_id]).
Proof.
  intros Hp Ht Hj Hc Hn.
  assert (Hpoll : poll net task_id (advance (1 + j) s) =
            (Raise RequestException, advance 1 (advance (1 + j) s), [Sleep 5; Get task_id])).
  { apply poll_no_response. cbn [advance http_calls].
    replace (1 + j + http_calls s)%nat with (S j + http_calls s)%nat by lia. exact Hn. }
  rewrite (generate_ends_at_poll net prompt reply task_id j s _ _ _ Hp Ht Hj Hc Hpoll
             ltac:(discriminate)).
  rewrite advance_advance. reflexivity.
Qed.

Lemma generate_poll_no_response_witness :
  generate_image_from_prompt (demo_net [demo_ok demo_created] NoResponse) "cat" initial =
    (Raise RequestException, advance 2 initial,
     Post "cat" :: waits 0 (JStr "T1") ++ [Sleep 5; Get (JStr "T1")]).
Proof.
  refine (generate_poll_no_response _ "cat" initial demo_created (JStr "T1") 0 _ _ _ _ _);
    try reflexivity.
  - lia.
  - intros i Hi. lia.
Defined.

(** X5.  When the job-creation response is a JSON object without a [task_id]
    key, [generate_image_from_prompt] raises [KeyError("task_id")] (line 90)
    and makes no status poll. *)
Theorem generate_creation_without_task_id
    (net : nat -> http_result) (prompt : string) (s : proc) (items : list (string * json)) :
  ok_body (net (http_calls s)) = Some (JObj items) ->
  dict_lookup "task_id" items = None ->
  generate_image_from_prompt net prompt s =
    (Raise (KeyError (JStr "task_id")), advance 1 s, [Post prompt]).
Proof.
  intros Hp Hl. apply ok_body_inv in Hp as (r & Hn & He & Hb).
  unfold generate_image_from_prompt, raise_for_status, response_json. unfold_M.
  rewrite Hn, He, Hb. cbn -[poll_loop]. rewrite Hl. reflexivity.
Qed.

Lemma generate_creation_without_task_id_witness :
  generate_image_from_prompt (demo_net [] (demo_ok (JObj []))) "cat" initial =
    (Raise (KeyError (JStr "task_id")), advance 1 initial, [Post "cat"]).
Proof.
  refine (generate_creation_without_task_id _ "cat" initial [] _ _); reflexivity.
Defined.

(** X6.  When a status poll answers with a JSON object without a
    [task_status] key, [generate_image_from_prompt] raises
    [KeyError("task_status")] (line 101); the poll is not repeated. *)
Theorem generate_poll_without_task_status
    (net : nat -> http_result) (prompt : string) (s : proc)
    (reply task_id : json) (j : nat) (items : list (string * json)) :
  ok_body (net (http_calls s)) = Some reply ->
  getitem reply "task_id" = Ret task_id ->
  (j < 20)%nat ->
  (forall i, (i < j)%nat -> continuing (net (S i + http_calls s)%nat) = true) ->
  ok_body (net (S j + http_calls s)%nat) = Some (JObj items) ->
  dict_lookup "task_status" items = None ->
  generate_image_from_prompt net prompt s =
    (Raise (KeyError (JStr "task_status")), advance (2 + j) s,
     Post prompt :: waits j task_id ++ [Sleep 5; Get task_id]).
Proof.
  intros Hp Ht Hj Hc Hd Hl.
  assert (Hg : getitem (JObj items) "task_status" = Raise (KeyError (JStr "task_status"))).
  { unfold getitem. rewrite Hl. reflexivity. }
  rewrite (generate_at_poll net prompt reply task_id j _ s Hp Ht Hj Hc Hd _ _ _
             (interpret_status_no_status task_id _ _ _ Hg) ltac:(discriminate)).
  reflexivity.
Qed.

Lemma generate_poll_without_task_status_witness :
  generate_image_from_prompt (demo_net [demo_ok demo_created] (demo_ok (JObj []))) "cat" initial =
    (Raise (KeyError (JStr "task_status")), advance 2 initial,
     Post "cat" :: waits 0 (JStr "T1") ++ [Sleep 5; Get (JStr "T1")]).
Proof.
  refine (generate_poll_without_task_status _ "cat" initial demo_created (JStr "T1") 0 [] _ _ _ _ _ _);
    try reflexivity.
  - lia.
  - intros i Hi. lia.
Defined.

Lemma generate_trace (net : nat -> http_result) prompt s :
  (exists reply task_id tr,
     ok_body (net (http_calls s)) = Some reply /\
     getitem reply "task_id" = Ret task_id /\
     effects (generate_image_from_prompt net prompt s) = Post prompt :: tr /\
     paced task_id tr) \/
  (effects (generate_image_from_prompt net prompt s) = [Post prompt] /\
   exists e, outcome (generate_image_from_prompt net prompt s) = Raise e).
Proof.
  destruct (ok_body (net (http_calls s))) as [reply|] eqn:Hb.
  - destruct (getitem reply "task_id") as [task_id|e] eqn:Ht.
    + left. exists reply, task_id.
      rewrite (generate_ok net _ _ _ _ Hb Ht).
      pose proof (paced_poll_loop net task_id 20 (advance 1 s)) as Hp.
      destruct (poll_loop net 20 task_id (advance 1 s)) as [[r s'] tr].
      unfold effects in *. cbn [snd] in *.
      exists (tr ++ (after_loop task_id r).2).
      split; [reflexivity|]. split; [exact Ht|]. split; [reflexivity|].
      apply (paced_app task_id _ _ Hp).
      apply paced_logs. destruct r as [[v|]|e]; reflexivity.
    + right. apply ok_body_inv in Hb as (r & Hn & He & Hb).
      unfold generate_image_from_prompt, raise_for_status, response_json. unfold_M.
      rewrite Hn, He, Hb. cbn -[poll_loop]. rewrite Ht. cbn. eauto.
  - right. unfold generate_image_from_prompt, raise_for_status, response_json. unfold_M.
    unfold ok_body in Hb.
    destruct (net (http_calls s)) as [|r]; cbn -[poll_loop]; [eauto|].
    destruct (is_error_status (status_code r)); cbn -[poll_loop]; [eauto|].
    rewrite Hb. cbn. eauto.
Qed.

Lemma generate_timing (net : nat -> http_result) prompt s :
  hd_error (effects (generate_image_from_prompt net prompt s)) = Some (Post prompt) /\
  submissions (effects (generate_image_from_prompt net prompt s)) = 1%nat /\
  slept (effects (generate_image_from_prompt net prompt s)) =
    5 * Z.of_nat (polls (effects (generate_image_from_prompt net prompt s))).
Proof.
  destruct (generate_trace net prompt s) as
    [(reply & task_id & tr & _ & _ & He & (H1 & _ & _ & H4)) | (He & _)];
    rewrite He.
  - change (Post prompt :: tr) with ([Post prompt] ++ tr).
    rewrite submissions_app, slept_app, polls_app, H1, H4.
    cbn. repeat split; lia.
  - cbn. repeat split; lia.
Qed.

(** X7.  Whatever the service answers, one run of
    [generate_image_from_prompt] makes exactly one POST, as its first effect,
    and sleeps 5 seconds for each status poll it makes: never more than 100
    seconds in all. *)
Theorem generate_paced (net : nat -> http_result) (prompt : string) (s : proc) :
  hd_error (effects (generate_image_from_prompt net prompt s)) = Some (Post prompt) /\
  submissions (effects (generate_image_from_prompt net prompt s)) = 1%nat /\
  slept (effects (generate_image_from_prompt net prompt s)) =
    5 * Z.of_nat (polls (effects (generate_image_from_prompt net prompt s))) /\
  slept (effects (generate_image_from_prompt net prompt s)) <= 100.
Proof.
  pose proof (generate_polls_bound net prompt s) as Hb.
  destruct (generate_timing net prompt s) as (H1 & H2 & H3).
  repeat split; try assumption. lia.
Qed.

(** X8.  Every status poll asks for the task that the job-creation response
    named: a GET is only made after a creation response that passed
    [raise_for_status], parsed and had a [task_id], and it carries that id. *)
Theorem generate_polls_created_task
    (net : nat -> http_result) (prompt : string) (s : proc) (t : json) :
  In (Get t) (effects (generate_image_from_prompt net prompt s)) ->
  exists reply, ok_body (net (http_calls s)) = Some reply /\ getitem reply "task_id" = Ret t.
Proof.
  intros Hin.
  destruct (generate_trace net prompt s) as
    [(reply & task_id & tr & Hb & Ht & He & (_ & H2 & _)) | (He & _)];
    rewrite He in Hin.
  - destruct Hin as [Hin|Hin]; [discriminate|].
    apply H2 in Hin. subst t. eauto.
  - destruct Hin as [Hin|[]]. discriminate.
Qed.

Lemma generate_polls_created_task_witness :
  exists reply,
    ok_body (demo_net [demo_ok demo_created] (demo_ok (demo_status "FAILED")) 0%nat) = Some reply /\
    getitem reply "task_id" = Ret (JStr "T1").
Proof.
  refine (generate_polls_created_task
            (demo_net [demo_ok demo_created] (demo_ok (demo_status "FAILED")))
            "cat" initial (JStr "T1") _).
  right. right. left. reflexivity.
Defined.

(** X9.  [generate_image_from_prompt] never sends anything to the chat and
    never touches [user_states]; the HTTP calls it makes are its POST and its
    polls. *)
Theorem generate_frame_and_calls (net : nat -> http_result) (prompt : string) (s : proc) :
  List.filter is_message (effects (generate_image_from_prompt net prompt s)) = [] /\
  user_states (final (generate_image_from_prompt net prompt s)) = user_states s /\
  http_calls (final (generate_image_from_prompt net prompt s)) =
    (http_calls s + 1 + polls (effects (generate_image_from_prompt net prompt s)))%nat.
Proof.
  split.
  - destruct (generate_trace net prompt s) as
      [(reply & task_id & tr & _ & _ & He & (_ & _ & H3 & _)) | (He & _)];
      rewrite He; cbn; [exact H3 | reflexivity].
  - destruct (generate_shape net prompt s) as (tr & He & _ & _ & Hf).
    rewrite Hf, He. split; [reflexivity|].
    change (Post prompt :: tr) with ([Post prompt] ++ tr). rewrite polls_app.
    cbn. lia.
Qed.

(** X10.  [generate_image_from_prompt] returns a value other than [None] only
    when the creation response named a task and some status poll, all earlier
    polls having answered RUNNING or PENDING, answered SUCCEED with a truthy
    [output_images] whose element 0 is the returned value. *)
Theorem generate_result_sound
    (net : nat -> http_result) (prompt : string) (s : proc) (x : json) :
  outcome (generate_image_from_prompt net prompt s) = Ret x ->
  x <> JNull ->
  exists reply task_id j d images,
    ok_body (net (http_calls s)) = Some reply /\
    getitem reply "task_id" = Ret task_id /\
    (j < 20)%nat /\
    (forall i, (i < j)%nat -> continuing (net (S i + http_calls s)%nat) = true) /\
    ok_body (net (S j + http_calls s)%nat) = Some d /\
    getitem d "task_status" = Ret (JStr "SUCCEED") /\
    getitem d "output_images" = Ret images /\
    truthy images = true /\
    getitem0 images = Ret x.
Proof.
  intros Ho Hx.
  destruct (generate_trace net prompt s) as
    [(reply & task_id & tr & Hb & Ht & _ & _) | (_ & e & He)]; [|congruence].
  rewrite (generate_ok net _ _ _ _ Hb Ht) in Ho.
  pose proof (poll_loop_sound net task_id 20 (advance 1 s) x) as Hs.
  destruct (poll_loop net 20 task_id (advance 1 s)) as [[r s'] tr'].
  unfold outcome in *. cbn [fst] in *.
  destruct r as [[v|]|e]; cbn in Ho; try congruence.
  injection Ho as ->.
  destruct (Hs eq_refl Hx) as (j & d & images & Hj & Hc & Hd & Hrest).
  cbn [advance http_calls] in Hc, Hd.
  exists reply, task_id, j, d, images. repeat split; try tauto.
  - intros i Hi. replace (S i + http_calls s)%nat with (i + (1 + http_calls s))%nat by lia. auto.
  - replace (S j + http_calls s)%nat with (j + (1 + http_calls s))%nat by lia. exact Hd.
Qed.

Lemma generate_result_sound_witness :
  exists reply task_id j d images,
    ok_body (demo_net [demo_ok demo_created] (demo_ok (demo_succeed [JStr "u"])) 0%nat) = Some reply /\
    getitem reply "task_id" = Ret task_id /\
    (j < 20)%nat /\
    (forall i, (i < j)%nat ->
       continuing (demo_net [demo_ok demo_created] (demo_ok (demo_succeed [JStr "u"])) (S i + 0)%nat)
         = true) /\
    ok_body (demo_net [demo_ok demo_created] (demo_ok (demo_succeed [JStr "u"])) (S j + 0)%nat)
      = Some d /\
    getitem d "task_status" = Ret (JStr "SUCCEED") /\
    getitem d "output_images" = Ret images /\
    truthy images = true /\
    getitem0 images = Ret (JStr "u").
Proof.
  refine (generate_result_sound
            (demo_net [demo_ok demo_created] (demo_ok (demo_succeed [JStr "u"])))
            "cat" initial (JStr "u") _ _); [reflexivity | discriminate].
Defined.

(** X11.  When a status poll answers SUCCEED with a truthy [output_images]
    that is not a list, line 103 subscripts it all the same: a string yields
    its first character, a dict raises [KeyError(0)], a number or [true]
    raises [TypeError]. *)
Theorem generate_succeed_malformed_images
    (net : nat -> http_result) (prompt : string) (s : proc)
    (reply task_id d images : json) (j : nat) :
  ok_body (net (http_calls s)) = Some reply ->
  getitem reply "task_id" = Ret task_id ->
  (j < 20)%nat ->
  (forall i, (i < j)%nat -> continuing (net (S i + http_calls s)%nat) = true) ->
  ok_body (net (S j + http_calls s)%nat) = Some d ->
  getitem d "task_status" = Ret (JStr "SUCCEED") ->
  getitem d "output_images" = Ret images ->
  truthy images = true ->
  outcome (generate_image_from_prompt net prompt s) =
    match images with
    | JArr (first :: _) => Ret first
    | JStr url => Ret (JStr (first_char url))
    | JObj _ => Raise (KeyError (JInt 0))
    | _ => Raise TypeError
    end /\
  effects (generate_image_from_prompt net prompt s) =
    Post prompt :: waits j task_id ++ [Sleep 5; Get task_id].
Proof.
  intros Hp Ht Hj Hc Hd Hs Hi Htr.
  assert (Ho : match getitem0 images with Ret x => Ret (Some x) | Raise e => Raise e end
               <> Ret None) by (destruct (getitem0 images); discriminate).
  rewrite (generate_at_poll net prompt reply task_id j d s Hp Ht Hj Hc Hd _ _ _
             (interpret_status_truthy task_id d images _ Hs Hi Htr) Ho).
  split; [|reflexivity]. unfold outcome. cbn [fst].
  destruct images as [|b|n|q|url|items|items]; try discriminate; cbn.
  - reflexivity.
  - reflexivity.
  - reflexivity.
  - destruct url; [discriminate | reflexivity].
  - destruct items; [discriminate | reflexivity].
  - reflexivity.
Qed.

Lemma generate_succeed_malformed_images_witness :
  outcome (generate_image_from_prompt
    (demo_net [demo_ok demo_created]
       (demo_ok (JObj [("task_status"%string, JStr "SUCCEED");
                       ("output_images"%string, JStr "http://x/img.png")])))
    "cat" initial) = Ret (JStr "h").
Proof.
  refine (proj1 (generate_succeed_malformed_images _ "cat" initial demo_created (JStr "T1")
            (JObj [("task_status"%string, JStr "SUCCEED");
                   ("output_images"%string, JStr "http://x/img.png")])
            (JStr "http://x/img.png") 0 _ _ _ _ _ _ _ _)); try reflexivity.
  - lia.
  - intros i Hi. lia.
Defined.

(** ** Further properties of the handlers *)

(** X12.  A button press whose callback data is not "generate_image" (or that
    has none) is only answered: the session entries stay as they are and
    nothing else is sent. *)
Theorem button_other_data (q : callback_query) (s : proc) :
  is_any_trigger (ButtonPress q) = false ->
  button q s = (Ret tt, s, [Answer (query_from_user q)]).
Proof.
  unfold is_any_trigger, button. unfold_M. intros H.
  destruct (data q) as [d|]; cbn; [|destruct s; reflexivity].
  rewrite H. cbn. destruct s; reflexivity.
Qed.

Lemma button_other_data_witness :
  button (mkQuery 7 (Some "other"%string)) (demo_waiting 8) =
    (Ret tt, demo_waiting 8, [Answer 7]).
Proof.
  refine (button_other_data (mkQuery 7 (Some "other"%string)) (demo_waiting 8) _). reflexivity.
Defined.

(** X13.  A press of the trigger button arms the presser's session whatever
    it was before, leaves every other user's entry alone, makes no HTTP call,
    and a second press changes nothing more. *)
Theorem button_trigger_arms (user_id : Z) (s : proc) :
  awaiting (user_states (final (button (trigger_press user_id) s))) user_id = true /\
  (forall other, other <> user_id ->
     user_states (final (button (trigger_press user_id) s)) !! other = user_states s !! other) /\
  http_calls (final (button (trigger_press user_id) s)) = http_calls s /\
  final (button (trigger_press user_id) (final (button (trigger_press user_id) s))) =
    final (button (trigger_press user_id) s).
Proof.
  rewrite !button_trigger. unfold final. cbn [fst snd user_states http_calls].
  split; [rewrite awaiting_insert, Z.eqb_refl; reflexivity|].
  split; [intros other Hne; apply lookup_insert_ne; congruence|].
  split; [reflexivity|].
  rewrite insert_insert_eq. reflexivity.
Qed.

Lemma button_trigger_arms_witness :
  awaiting (user_states (final (button (trigger_press 7) (demo_waiting 8)))) 7 = true /\
  user_states (final (button (trigger_press 7) (demo_waiting 8))) !! 8 =
    user_states (demo_waiting 8) !! 8.
Proof.
  pose proof (button_trigger_arms 7 (demo_waiting 8)) as (H1 & H2 & _).
  split; [exact H1|]. apply (H2 8). discriminate.
Defined.

(** X14.  [/start] changes no state and makes no HTTP call; every button of
    the keyboard it sends carries callback data that [button] recognises as
    the trigger. *)
Theorem start_offers_trigger (m : message) (s : proc) :
  start m s = (Ret tt, s, [ReplyText (from_user m) Greeting (Some start_keyboard)]) /\
  forall row label callback_data presser,
    In row start_keyboard -> In (label, callback_data) row ->
    is_any_trigger (ButtonPress (mkQuery presser (Some callback_data))) = true.
Proof.
  split; [reflexivity|].
  intros row label cb presser [<-|[]] [Heq|[]]. injection Heq as _ <-. reflexivity.
Qed.

Lemma start_offers_trigger_witness :
  is_any_trigger (ButtonPress (mkQuery 7 (Some "generate_image"%string))) = true.
Proof.
  refine (proj2 (start_offers_trigger (mkMessage 7 "/start") initial)
            [("Сгенерировать изображение"%string, "generate_image"%string)]
            "Сгенерировать изображение"%string "generate_image"%string 7 _ _);
    left; reflexivity.
Defined.

Section RunFacts.

Variable net : nat -> http_result.

Lemma run_app a : forall b s,
  run net (a ++ b) s =
    let '(r, s', tr) := run net b (final (run net a s)) in
    (r, s', effects (run net a s) ++ tr).
Proof.
  induction a as [|u a IH]; intros b s.
  - cbn. destruct (run net b s) as [[r s'] tr]. reflexivity.
  - cbn [app]. rewrite !run_cons, IH.
    destruct (run net a (final (process_update net u s))) as [[r1 s1] tr1].
    unfold final, effects. cbn [fst snd].
    destruct (run net b s1) as [[r2 s2] tr2]. rewrite app_assoc. reflexivity.
Qed.

Lemma process_update_final u s :
  user_states (final (process_update net u s)) =
    match u with
    | ButtonPress q =>
        if is_any_trigger u
        then <[query_from_user q := "waiting_for_prompt"%string]> (user_states s)
        else user_states s
    | TextMessage m =>
        if awaiting (user_states s) (from_user m)
        then delete (from_user m) (user_states s)
        else user_states s
    | _ => user_states s
    end.
Proof.
  destruct u as [m|q|m|]; cbn [process_update]; try reflexivity.
  - unfold button, is_any_trigger. unfold_M.
    destruct (data q) as [d|]; cbn; [|reflexivity].
    destruct (String.eqb d "generate_image"); reflexivity.
  - apply handle_message_final.
Qed.

Lemma process_update_frame u s other :
  is_from other u = false ->
  user_states (final (process_update net u s)) !! other = user_states s !! other.
Proof.
  intros H. rewrite process_update_final.
  destruct u as [m|q|m|]; try reflexivity; unfold is_from in H; cbn [sender] in H.
  - destruct (is_any_trigger (ButtonPress q)); [|reflexivity].
    apply lookup_insert_ne. intros Heq. rewrite Heq, Z.eqb_refl in H. discriminate.
  - destruct (awaiting (user_states s) (from_user m)); [|reflexivity].
    apply lookup_delete_ne. intros Heq. rewrite Heq, Z.eqb_refl in H. discriminate.
Qed.

Lemma process_update_only_waiting u s :
  only_waiting (user_states s) -> only_waiting (user_states (final (process_update net u s))).
Proof.
  intros H. rewrite process_update_final.
  destruct u as [m|q|m|]; try exact H.
  - destruct (is_any_trigger (ButtonPress q)); [|exact H].
    intros u v. destruct (decide (u = query_from_user q)) as [->|Hne].
    + rewrite lookup_insert_eq. congruence.
    + rewrite lookup_insert_ne by congruence. apply H.
  - destruct (awaiting (user_states s) (from_user m)); [|exact H].
    intros u v. destruct (decide (u = from_user m)) as [->|Hne].
    + rewrite lookup_delete_eq. discriminate.
    + rewrite lookup_delete_ne by congruence. apply H.
Qed.

Lemma process_update_armed u s user_id :
  is_text_of user_id u = false ->
  awaiting (user_states s) user_id = true ->
  awaiting (user_states (final (process_update net u s))) user_id = true.
Proof.
  intros Hu Ha. rewrite process_update_final.
  destruct u as [m|q|m|]; try exact Ha.
  - destruct (is_any_trigger (ButtonPress q)); [|exact Ha].
    rewrite awaiting_insert. destruct (Z.eqb (query_from_user q) user_id); [reflexivity | exact Ha].
  - destruct (awaiting (user_states s) (from_user m)); [|exact Ha].
    cbn [is_text_of] in Hu. rewrite awaiting_delete, Hu. exact Ha.
Qed.

Lemma report_quiet u r :
  slept (report u r) = 0 /\ polls (report u r) = 0%nat /\ submissions (report u r) = 0%nat.
Proof. destruct r as [x|e]; cbn; [destruct (truthy x)|]; repeat split. Qed.

Lemma process_update_time u s :
  slept (effects (process_update net u s)) =
    5 * Z.of_nat (polls (effects (process_update net u s))) /\
  (polls (effects (process_update net u s))
   <= 20 * submissions (effects (process_update net u s)))%nat.
Proof.
  destruct u as [m|q|m|]; cbn [process_update].
  - cbn. split; lia.
  - unfold button. unfold_M. destruct (data q) as [d|]; cbn; [|split; lia].
    destruct (String.eqb d "generate_image"); cbn; split; lia.
  - destruct (awaiting (user_states s) (from_user m)) eqn:Ha.
    + rewrite (handle_message_accept net m s Ha).
      destruct (generate_timing net (text m) (forget (from_user m) s)) as (_ & H2 & H3).
      pose proof (generate_polls_bound net (text m) (forget (from_user m) s)) as Hb.
      destruct (generate_image_from_prompt net (text m) (forget (from_user m) s)) as [[r s'] tr].
      unfold effects in *. cbn [snd] in *.
      destruct (report_quiet (from_user m) r) as (R1 & R2 & R3).
      change (ReplyText (from_user m) (Starting (text m)) None :: tr ++ report (from_user m) r)
        with ([ReplyText (from_user m) (Starting (text m)) None] ++ tr ++ report (from_user m) r).
      rewrite !slept_app, !polls_app, !submissions_app, R1, R2, R3, H2, H3. cbn. split; lia.
    + rewrite (handle_message_reject net m s Ha). cbn. split; lia.
  - cbn. split; lia.
Qed.

Lemma process_update_submissions u s :
  (submissions (effects (process_update net u s)) +
   size (user_states (final (process_update net u s)))
   <= bool_to_nat (is_any_trigger u) + size (user_states s))%nat.
Proof.
  rewrite process_update_final.
  destruct u as [m|q|m|].
  - cbn. lia.
  - assert (Hs : submissions (effects (process_update net (ButtonPress q) s)) = 0%nat).
    { cbn [process_update]. unfold button. unfold_M. destruct (data q) as [d|]; cbn; [|reflexivity].
      destruct (String.eqb d "generate_image"); reflexivity. }
    rewrite Hs. destruct (is_any_trigger (ButtonPress q)); cbn [bool_to_nat]; [|lia].
    rewrite map_size_insert. destruct (user_states s !! query_from_user q); cbn; lia.
  - cbn [process_update is_any_trigger bool_to_nat]. rewrite handle_message_submissions.
    destruct (awaiting (user_states s) (from_user m)) eqn:Ha; cbn [bool_to_nat]; [|lia].
    rewrite map_size_delete. unfold awaiting in Ha.
    destruct (user_states s !! from_user m) as [v|] eqn:Hl; [|discriminate].
    assert (size (user_states s) <> 0%nat).
    { intros H0. apply map_size_empty_inv in H0. rewrite H0, lookup_empty in Hl. discriminate. }
    cbn. lia.
  - cbn. lia.
Qed.

End RunFacts.

(** X15.  Trigger, then prompt: a press of the trigger button followed by a
    text message of the same user runs exactly one job, on the text of that
    message, whatever the session was before; the result is reported to the
    user and the user's entry is gone afterwards. *)
Theorem trigger_then_prompt
    (net : nat -> http_result) (user_id : Z) (prompt : string) (s : proc) :
  run net [ButtonPress (trigger_press user_id); TextMessage (mkMessage user_id prompt)] s =
    (Ret tt,
     final (generate_image_from_prompt net prompt (forget user_id s)),
     [Answer user_id; EditMessageText user_id AskPrompt;
      ReplyText user_id (Starting prompt) None] ++
     effects (generate_image_from_prompt net prompt (forget user_id s)) ++
     report user_id (outcome (generate_image_from_prompt net prompt (forget user_id s)))) /\
  submissions (effects
    (run net [ButtonPress (trigger_press user_id); TextMessage (mkMessage user_id prompt)] s))
    = 1%nat /\
  user_states (final
    (run net [ButtonPress (trigger_press user_id); TextMessage (mkMessage user_id prompt)] s))
    = delete user_id (user_states s).
Proof.
  assert (Heq : run net [ButtonPress (trigger_press user_id);
                         TextMessage (mkMessage user_id prompt)] s =
    (Ret tt,
     final (generate_image_from_prompt net prompt (forget user_id s)),
     [Answer user_id; EditMessageText user_id AskPrompt;
      ReplyText user_id (Starting prompt) None] ++
     effects (generate_image_from_prompt net prompt (forget user_id s)) ++
     report user_id (outcome (generate_image_from_prompt net prompt (forget user_id s))))).
  { assert (H2 : handle_message net (mkMessage user_id prompt)
                   (mkProc (<[user_id := "waiting_for_prompt"%string]> (user_states s))
                      (http_calls s)) =
                 let '(r, s', tr) := generate_image_from_prompt net prompt (forget user_id s) in
                 (Ret tt, s', ReplyText user_id (Starting prompt) None :: tr ++ report user_id r)).
    { rewrite handle_message_accept
        by (cbn [from_user user_states]; rewrite awaiting_insert, Z.eqb_refl; reflexivity).
      cbn [from_user text]. unfold forget. cbn [user_states http_calls].
      rewrite delete_insert_eq. reflexivity. }
    cbn [run process_update]. unfold mbind, M_bind, mret, M_ret.
    rewrite button_trigger, H2.
    destruct (generate_image_from_prompt net prompt (forget user_id s)) as [[r s'] tr].
    unfold final, effects, outcome. cbn [fst snd]. rewrite app_nil_r. reflexivity. }
  split; [exact Heq|]. rewrite Heq.
  destruct (generate_timing net prompt (forget user_id s)) as (_ & H2 & _).
  pose proof (generate_frame net prompt (forget user_id s)) as Hf.
  destruct (generate_image_from_prompt net prompt (forget user_id s)) as [[r s'] tr].
  unfold effects, final, outcome in *. cbn [fst snd] in *.
  destruct (report_quiet user_id r) as (_ & _ & R3).
  split; [|exact Hf].
  rewrite !submissions_app, H2, R3. reflexivity.
Qed.

(** X16.  What the user gets for a SUCCEED answer with a non-empty list: the
    photo reply carries element 0 of [output_images] when that element is
    truthy; when it is falsy (an empty string, [null]) line 67 takes it for a
    failure and the "could not generate" text is sent instead. *)
Theorem handle_message_reports_first_image
    (net : nat -> http_result) (m : message) (s : proc)
    (reply task_id d first : json) (others : list json) (j : nat) :
  awaiting (user_states s) (from_user m) = true ->
  ok_body (net (http_calls s)) = Some reply ->
  getitem reply "task_id" = Ret task_id ->
  (j < 20)%nat ->
  (forall i, (i < j)%nat -> continuing (net (S i + http_calls s)%nat) = true) ->
  ok_body (net (S j + http_calls s)%nat) = Some d ->
  getitem d "task_status" = Ret (JStr "SUCCEED") ->
  getitem d "output_images" = Ret (JArr (first :: others)) ->
  effects (handle_message net m s) =
    ReplyText (from_user m) (Starting (text m)) None ::
    Post (text m) :: waits j task_id ++
    [Sleep 5; Get task_id;
     if truthy first then ReplyPhoto (from_user m) first photo_caption
     else ReplyText (from_user m) Failed None].
Proof.
  intros Ha Hp Ht Hj Hc Hd Hs Hi.
  rewrite (handle_message_accept net m s Ha).
  rewrite (generate_at_poll net (text m) reply task_id j d (forget (from_user m) s) Hp Ht Hj Hc Hd
             _ _ _ (interpret_status_images task_id d _ _ _ Hs Hi) ltac:(discriminate)).
  unfold effects. cbn [fst snd after_loop report].
  f_equal. cbn [app]. f_equal. rewrite <- app_assoc. destruct (truthy first); reflexivity.
Qed.

Lemma handle_message_reports_first_image_witness :
  effects (handle_message
    (demo_net [demo_ok demo_created] (demo_ok (demo_succeed [JStr ""])))
    (mkMessage 7 "cat") (demo_waiting 7)) =
    [ReplyText 7 (Starting "cat") None; Post "cat"; Sleep 5; Get (JStr "T1");
     ReplyText 7 Failed None].
Proof.
  refine (handle_message_reports_first_image _ (mkMessage 7 "cat") (demo_waiting 7)
            demo_created (JStr "T1") (demo_succeed [JStr ""]) (JStr "") [] 0 _ _ _ _ _ _ _ _);
    try reflexivity.
  - lia.
  - intros i Hi. lia.
Defined.

(** X17.  In every state a freshly started process reaches, an entry of
    [user_states] holds "waiting_for_prompt" and nothing else; the test of
    line 60 is then the same as the presence of the key. *)
Theorem user_states_values (net : nat -> http_result) (updates : list update) (user_id : Z) :
  (user_states (final (run net updates initial)) !! user_id = None \/
   user_states (final (run net updates initial)) !! user_id =
     Some "waiting_for_prompt"%string) /\
  (awaiting (user_states (final (run net updates initial))) user_id = true <->
   is_Some (user_states (final (run net updates initial)) !! user_id)).
Proof.
  assert (H : forall us s, only_waiting (user_states s) ->
                only_waiting (user_states (final (run net us s)))).
  { induction us as [|u us IH]; intros s Hs; [exact Hs|].
    rewrite run_cons.
    specialize (IH _ (process_update_only_waiting net u s Hs)).
    destruct (run net us (final (process_update net u s))) as [[r s'] tr]. exact IH. }
  assert (Hi : only_waiting (user_states initial)).
  { intros u v Hl. cbn in Hl. rewrite lookup_empty in Hl. discriminate. }
  specialize (H updates initial Hi user_id).
  unfold awaiting.
  destruct (user_states (final (run net updates initial)) !! user_id) as [v|].
  - rewrite (H v eq_refl). split; [right; reflexivity|].
    split; [intros _; eexists; reflexivity | reflexivity].
  - split; [left; reflexivity|]. split; [discriminate | intros [x Hx]; discriminate].
Qed.

(** X18.  An armed session stays armed until its user sends a text message:
    no update of another user, and no /start or button press of the user,
    disarms it. *)
Theorem trigger_stays_armed
    (net : nat -> http_result) (updates : list update) (s : proc) (user_id : Z) :
  awaiting (user_states s) user_id = true ->
  forallb (fun u => negb (is_text_of user_id u)) updates = true ->
  awaiting (user_states (final (run net updates s))) user_id = true.
Proof.
  revert s. induction updates as [|u us IH]; intros s Ha Hu; [exact Ha|].
  cbn [forallb] in Hu. apply andb_true_iff in Hu as [Hu Hus].
  apply negb_true_iff in Hu.
  rewrite run_cons.
  specialize (IH _ (process_update_armed net u s user_id Hu Ha) Hus).
  destruct (run net us (final (process_update net u s))) as [[r s'] tr]. exact IH.
Qed.

Lemma trigger_stays_armed_witness :
  awaiting (user_states (final (run (demo_net [] NoResponse)
    [StartCommand (mkMessage 7 "/start"); ButtonPress (mkQuery 7 None);
     ButtonPress (trigger_press 8); TextMessage (mkMessage 8 "dog"); OtherUpdate]
    (demo_waiting 7)))) 7 = true.
Proof.
  refine (trigger_stays_armed _ _ (demo_waiting 7) 7 _ _); reflexivity.
Defined.

(** X19.  A user's session entry is changed by that user's own updates only:
    a run without any update of the user leaves the entry as it was. *)
Theorem session_isolated
    (net : nat -> http_result) (updates : list update) (s : proc) (user_id : Z) :
  forallb (fun u => negb (is_from user_id u)) updates = true ->
  user_states (final (run net updates s)) !! user_id = user_states s !! user_id.
Proof.
  revert s. induction updates as [|u us IH]; intros s Hu; [reflexivity|].
  cbn [forallb] in Hu. apply andb_true_iff in Hu as [Hu Hus].
  apply negb_true_iff in Hu.
  rewrite run_cons.
  specialize (IH (final (process_update net u s)) Hus).
  rewrite (process_update_frame net u s user_id Hu) in IH.
  destruct (run net us (final (process_update net u s))) as [[r s'] tr]. exact IH.
Qed.

Lemma session_isolated_witness :
  user_states (final (run (demo_net [] NoResponse)
    [ButtonPress (trigger_press 8); TextMessage (mkMessage 8 "dog");
     TextMessage (mkMessage 9 "hi")] (demo_waiting 7))) !! 7 =
  user_states (demo_waiting 7) !! 7.
Proof.
  refine (session_isolated _ _ (demo_waiting 7) 7 _). reflexivity.
Defined.

(** X21.  Only an accepted text message reaches the service: every other
    update (/start, a button press, a text from a user who is not awaiting, an
    unhandled update) makes no HTTP call, does not sleep and does not log; it
    only talks to the chat. *)
Theorem quiet_updates (net : nat -> http_result) (u : update) (s : proc) :
  accepted_in s u = false ->
  http_calls (final (process_update net u s)) = http_calls s /\
  forallb is_message (effects (process_update net u s)) = true.
Proof.
  destruct u as [m|q|m|]; cbn [accepted_in process_update]; intros H.
  - split; reflexivity.
  - unfold button. unfold_M. destruct (data q) as [d|]; cbn; [|split; reflexivity].
    destruct (String.eqb d "generate_image"); split; reflexivity.
  - rewrite (handle_message_reject net m s H). split; reflexivity.
  - split; reflexivity.
Qed.

Lemma quiet_updates_witness :
  http_calls (final (process_update (demo_net [] NoResponse)
     (ButtonPress (trigger_press 7)) initial)) = http_calls initial /\
  forallb is_message (effects (process_update (demo_net [] NoResponse)
     (ButtonPress (trigger_press 7)) initial)) = true.
Proof.
  refine (quiet_updates _ (ButtonPress (trigger_press 7)) initial _). reflexivity.
Defined.

(** X22.  A freshly started process never submits more jobs than there were
    presses of the trigger button: the jobs submitted plus the sessions still
    armed are at most the presses. *)
Theorem submissions_bounded_by_triggers (net : nat -> http_result) (updates : list update) :
  (submissions (effects (run net updates initial)) +
   size (user_states (final (run net updates initial)))
   <= length (List.filter is_any_trigger updates))%nat.
Proof.
  assert (H : forall us s,
    (submissions (effects (run net us s)) + size (user_states (final (run net us s)))
     <= length (List.filter is_any_trigger us) + size (user_states s))%nat).
  { induction us as [|u us IH]; intros s; [cbn; lia|].
    rewrite run_cons.
    specialize (IH (final (process_update net u s))).
    pose proof (process_update_submissions net u s) as Hu.
    destruct (run net us (final (process_update net u s))) as [[r s'] tr].
    unfold final, effects in *. cbn [fst snd] in *.
    rewrite submissions_app. cbn [List.filter].
    destruct (is_any_trigger u); cbn [length bool_to_nat] in *; lia. }
  specialize (H updates initial). cbn [initial user_states] in H.
  rewrite map_size_empty in H. lia.
Qed.

(** X23.  Over any run the process sleeps 5 seconds per status poll and makes
    at most 20 polls per submitted job: at most 100 seconds of sleep for each
    job, and none without one. *)
Theorem run_sleep_bounded (net : nat -> http_result) (updates : list update) (s : proc) :
  slept (effects (run net updates s)) = 5 * Z.of_nat (polls (effects (run net updates s))) /\
  (polls (effects (run net updates s)) <= 20 * submissions (effects (run net updates s)))%nat /\
  slept (effects (run net updates s)) <=
    100 * Z.of_nat (submissions (effects (run net updates s))).
Proof.
  assert (H : slept (effects (run net updates s)) =
                5 * Z.of_nat (polls (effects (run net updates s))) /\
              (polls (effects (run net updates s))
               <= 20 * submissions (effects (run net updates s)))%nat).
  { revert s. induction updates as [|u us IH]; intros s; [cbn; split; lia|].
    rewrite run_cons.
    specialize (IH (final (process_update net u s))).
    destruct (process_update_time net u s) as [T1 T2].
    destruct (run net us (final (process_update net u s))) as [[r s'] tr].
    unfold effects in *. cbn [snd] in *.
    rewrite slept_app, polls_app, submissions_app. split; lia. }
  destruct H as [H1 H2]. split; [exact H1|]. split; [exact H2|]. lia.
Qed.

(** X25.  When an accepted prompt's job is created and all 20 status polls
    answer RUNNING or PENDING, in any mix, the user waits through 100 seconds
    of sleep and then gets the "could not generate" text, after the timeout
    is logged; the session entry is gone. *)
Theorem handle_message_timeout
    (net : nat -> http_result) (m : message) (s : proc) (reply task_id : json) :
  awaiting (user_states s) (from_user m) = true ->
  ok_body (net (http_calls s)) = Some reply ->
  getitem reply "task_id" = Ret task_id ->
  (forall i, (i < 20)%nat -> continuing (net (S i + http_calls s)%nat) = true) ->
  handle_message net m s =
    (Ret tt, advance 21 (forget (from_user m) s),
     ReplyText (from_user m) (Starting (text m)) None ::
     Post (text m) :: waits 20 task_id ++
     [Log ERROR (LogTimeout task_id); ReplyText (from_user m) Failed None]) /\
  slept (effects (handle_message net m s)) = 100.
Proof.
  intros Ha Hp Ht Hc.
  assert (Heq : handle_message net m s =
    (Ret tt, advance 21 (forget (from_user m) s),
     ReplyText (from_user m) (Starting (text m)) None ::
     Post (text m) :: waits 20 task_id ++
     [Log ERROR (LogTimeout task_id); ReplyText (from_user m) Failed None])).
  { rewrite (handle_message_accept net m s Ha).
    rewrite (generate_ok net (text m) reply task_id (forget (from_user m) s) Hp Ht).
    change 20%nat with (20 + 0)%nat at 1.
    rewrite poll_loop_continue.
    - cbn [poll_loop]. unfold mret, M_ret. rewrite advance_advance.
      cbn [fst snd after_loop report truthy]. rewrite app_nil_r.
      reflexivity.
    - intros i Hi. cbn [advance forget http_calls].
      replace (i + (1 + http_calls s))%nat with (S i + http_calls s)%nat by lia. auto. }
  split; [exact Heq|]. rewrite Heq. reflexivity.
Qed.

Lemma handle_message_timeout_witness :
  slept (effects (handle_message
    (demo_net [demo_ok demo_created; demo_ok (demo_status "PENDING")]
       (demo_ok (demo_status "RUNNING")))
    (mkMessage 7 "cat") (demo_waiting 7))) = 100.
Proof.
  refine (proj2 (handle_message_timeout _ (mkMessage 7 "cat") (demo_waiting 7)
            demo_created (JStr "T1") _ _ _ _)); try reflexivity.
  intros i Hi. do 20 (destruct i as [|i]; [reflexivity|]). lia.
Defined.

(** ** Start-up *)

Lemma unset_false v : unset v = false <-> exists s, v = Some s /\ s <> EmptyString.
Proof.
  unfold unset. destruct v as [s|].
  - split.
    + intros H. exists s. split; [reflexivity|]. intros ->. discriminate.
    + intros (t & Ht & Hne). injection Ht as <-.
      destruct (String.eqb_spec s ""); [contradiction | reflexivity].
  - split; [discriminate | intros (t & Ht & _); discriminate].
Qed.

(** X24.  The module starts only with both environment variables set to
    non-empty values; then the Authorization header is "Bearer " followed by
    the API key and [user_states] is empty.  Otherwise it exits with code 1,
    an empty value counting as a missing one, and the API key is checked
    first: the bot token is only reported when the API key is there. *)
Theorem startup_outcome (environ : string -> option string) :
  match startup environ with
  | Started c s =>
      exists api_key token,
        environ "MODEL_SCOPE_API_KEY"%string = Some api_key /\ api_key <> EmptyString /\
        environ "TELEGRAM_BOT_TOKEN"%string = Some token /\ token <> EmptyString /\
        c = mkConfig
              [("Authorization"%string, String.append "Bearer " api_key);
               ("Content-Type"%string, "application/json"%string)]
              (Some token) /\
        s = initial
  | Exited code ApiKeyNotSet =>
      code = 1 /\
      (environ "MODEL_SCOPE_API_KEY"%string = None \/
       environ "MODEL_SCOPE_API_KEY"%string = Some EmptyString)
  | Exited code BotTokenNotSet =>
      code = 1 /\
      (exists api_key,
         environ "MODEL_SCOPE_API_KEY"%string = Some api_key /\ api_key <> EmptyString) /\
      (environ "TELEGRAM_BOT_TOKEN"%string = None \/
       environ "TELEGRAM_BOT_TOKEN"%string = Some EmptyString)
  end.
Proof.
  unfold startup.
  destruct (unset (environ "MODEL_SCOPE_API_KEY"%string)) eqn:Hk.
  - split; [reflexivity|]. unfold unset in Hk.
    destruct (environ "MODEL_SCOPE_API_KEY"%string) as [k|]; [|left; reflexivity].
    apply String.eqb_eq in Hk. subst k. right. reflexivity.
  - apply unset_false in Hk as (k & Hk & Hkne).
    destruct (unset (environ "TELEGRAM_BOT_TOKEN"%string)) eqn:Ht.
    + split; [reflexivity|]. split; [exists k; auto|]. unfold unset in Ht.
      destruct (environ "TELEGRAM_BOT_TOKEN"%string) as [t|]; [|left; reflexivity].
      apply String.eqb_eq in Ht. subst t. right. reflexivity.
    + apply unset_false in Ht as (t & Ht & Htne).
      exists k, t. rewrite Hk, Ht. repeat split; assumption.
Qed.
